(** * Alertmanager MCP adapter: a shallow embedding of [src/index.ts]

    The adapter registers six tools.  Each handler builds a query string or a
    JSON body, calls [fetchFromAlertmanager] once, reshapes the parsed response
    and returns a [CallToolResult].  This file embeds

    - the JavaScript values the handlers compute with ([jsval]), with the
      dynamic semantics of the property reads, [||], [.map], [.find] and
      template literals the source uses;
    - the world the handlers act on (environment, upstream service, wall
      clock, requests issued, standard error) as explicit state passing in a
      state-and-exception monad [M];
    - [fetchFromAlertmanager] and the six handlers, statement by statement;
    - the zod shape of create-silence.

    Strings are modelled by their UTF-8 bytes.  Parts of the JavaScript
    runtime that the source calls but that are not its own code
    ([JSON.stringify], number formatting, coercion of non-primitive operands)
    are fields of a [Runtime] record over which every definition and theorem
    is generic. *)

From Stdlib Require Import String Ascii List Bool Arith Lia Floats DecimalString.
Import ListNotations.
Open Scope string_scope.

Set Warnings "-register-all".

(** ** Exceptions and results *)

(** What a [throw] carries.  Every exception the source or the runtime raises
    here is an [Error] instance ([new Error], [TypeError], [SyntaxError], the
    abort error of [fetch]); [Thrown] stands for any other thrown value and
    holds what [String(error)] makes of it. *)
Inductive exn : Type :=
| ErrorObject (name message : string)
| Thrown (rendered : string).

(** [error instanceof Error ? error.message : String(error)] *)
Definition errorMessage (error : exn) : string :=
  match error with
  | ErrorObject _ message => message
  | Thrown rendered => rendered
  end.

Definition Error (message : string) : exn := ErrorObject "Error" message.
Definition TypeError (message : string) : exn := ErrorObject "TypeError" message.

Inductive result (A : Type) : Type :=
| Ok (a : A)
| Throw (e : exn).
Arguments Ok {A} a.
Arguments Throw {A} e.

Definition rbind {A B} (r : result A) (k : A -> result B) : result B :=
  match r with
  | Ok a => k a
  | Throw e => Throw e
  end.

Notation "'let?' x := r 'in' k" := (rbind r (fun x => k))
  (at level 10, x name, r at level 100, k at level 200).

Fixpoint mapM {A B} (f : A -> result B) (l : list A) : result (list B) :=
  match l with
  | [] => Ok []
  | x :: rest =>
      let? y := f x in
      let? ys := mapM f rest in
      Ok (y :: ys)
  end.

(** ** JavaScript values *)

Inductive jsval : Type :=
| VUndefined
| VNull
| VBool (b : bool)
| VNum (f : float)
| VStr (s : string)
| VArr (elems : list jsval)
| VObj (fields : list (string * jsval)).

Definition nonempty (s : string) : bool :=
  match s with
  | EmptyString => false
  | String _ _ => true
  end.

(** First binding of a key: the own property of an object literal or of a
    parsed JSON object (whose keys are distinct). *)
Fixpoint assoc {A} (k : string) (l : list (string * A)) : option A :=
  match l with
  | [] => None
  | (k', x) :: rest => if String.eqb k k' then Some x else assoc k rest
  end.

Definition keys {A} (l : list (string * A)) : list string := map fst l.

(** ToBoolean.  A parsed JSON number is never NaN, but the test is the
    runtime's. *)
Definition truthy (v : jsval) : bool :=
  match v with
  | VUndefined | VNull => false
  | VBool b => b
  | VNum f => negb (PrimFloat.eqb f 0) && PrimFloat.eqb f f
  | VStr s => nonempty s
  | VArr _ | VObj _ => true
  end.

(** [a || b] *)
Definition or_else (a b : jsval) : jsval := if truthy a then a else b.

(** [v.k] for the property names the source reads other than [length]: none
    of them is an index or a property of a built-in prototype, so only an
    object can have one, and [undefined] and [null] have no properties. *)
Definition get (v : jsval) (k : string) : result jsval :=
  match v with
  | VUndefined =>
      Throw (TypeError ("Cannot read properties of undefined (reading '" ++ k ++ "')"))
  | VNull =>
      Throw (TypeError ("Cannot read properties of null (reading '" ++ k ++ "')"))
  | VObj fields =>
      Ok (match assoc k fields with Some x => x | None => VUndefined end)
  | VBool _ | VNum _ | VStr _ | VArr _ => Ok VUndefined
  end.

(** [v === s] against a string *)
Definition strict_eq_str (v : jsval) (s : string) : bool :=
  match v with
  | VStr t => String.eqb t s
  | _ => false
  end.

(** ** The runtime the source calls into *)

Record Runtime : Type := {
  (** [JSON.stringify(v, null, 2)] on a value built from parsed JSON *)
  JSON_stringify : jsval -> string;
  (** ToString of a number, an array or an object inside a template literal *)
  ToString : jsval -> result string;
  (** [v > 0] when [v] is a string, an array or an object (ToPrimitive, then
      StringToNumber) *)
  ToNumber_gt0 : jsval -> result bool
}.

Section WithRuntime.

Context (rt : Runtime).

(** [`${v}`] *)
Definition template (v : jsval) : result string :=
  match v with
  | VStr s => Ok s
  | VUndefined => Ok "undefined"
  | VNull => Ok "null"
  | VBool true => Ok "true"
  | VBool false => Ok "false"
  | VNum _ | VArr _ | VObj _ => ToString rt v
  end.

(** [v > 0] *)
Definition gt0 (v : jsval) : result bool :=
  match v with
  | VUndefined | VNull => Ok false
  | VBool b => Ok b
  | VNum f => Ok (PrimFloat.ltb 0 f)
  | VStr _ | VArr _ | VObj _ => ToNumber_gt0 rt v
  end.

(** [v.length > 0] *)
Definition length_gt0 (v : jsval) : result bool :=
  match v with
  | VUndefined =>
      Throw (TypeError "Cannot read properties of undefined (reading 'length')")
  | VNull =>
      Throw (TypeError "Cannot read properties of null (reading 'length')")
  | VArr elems => Ok (match elems with [] => false | _ :: _ => true end)
  | VStr s => Ok (nonempty s)
  | VObj fields =>
      match assoc "length" fields with
      | Some len => gt0 len
      | None => Ok false
      end
  | VBool _ | VNum _ => Ok false
  end.

(** [name.map(f)] *)
Definition array_map (name : string) (f : jsval -> result jsval) (v : jsval)
  : result jsval :=
  match v with
  | VArr elems => let? out := mapM f elems in Ok (VArr out)
  | VUndefined =>
      Throw (TypeError "Cannot read properties of undefined (reading 'map')")
  | VNull =>
      Throw (TypeError "Cannot read properties of null (reading 'map')")
  | _ => Throw (TypeError (name ++ ".map is not a function"))
  end.

Fixpoint findM (p : jsval -> result bool) (l : list jsval) : result jsval :=
  match l with
  | [] => Ok VUndefined
  | x :: rest =>
      let? hit := p x in
      if hit then Ok x else findM p rest
  end.

(** [name.find(p)] *)
Definition array_find (name : string) (p : jsval -> result bool) (v : jsval)
  : result jsval :=
  match v with
  | VArr elems => findM p elems
  | VUndefined =>
      Throw (TypeError "Cannot read properties of undefined (reading 'find')")
  | VNull =>
      Throw (TypeError "Cannot read properties of null (reading 'find')")
  | _ => Throw (TypeError (name ++ ".find is not a function"))
  end.

End WithRuntime.

(** ** The world: environment, upstream service, clock, effects *)

(** The [RequestInit] fields the source sets.  [signal] is left out: the
    abort controller only decides when a pending [fetch] rejects, which is
    the upstream's [Rejects] outcome below. *)
Record RequestInit : Type := {
  method : option string;
  headers : list (string * string);
  body : option string
}.

(** [options = {}] *)
Definition no_options : RequestInit :=
  {| method := None; headers := []; body := None |}.

Record Request : Type := {
  url : string;
  init : RequestInit
}.

Module Response.
(** [status] is the HTTP status code; [json] is the outcome of
    [response.json()]: the parsed body, or the [SyntaxError] it rejects with
    when the body is not valid JSON. *)
Record t : Type := {
  status : nat;
  statusText : string;
  json : result jsval
}.
(** [response.ok]: the status is in the range 200-299. *)
Definition ok (r : t) : bool :=
  ((200 <=? status r)%nat && (status r <=? 299)%nat)%bool.
End Response.

(** [fetch] resolves with a response (whatever its status) or rejects: a
    network failure, or the abort fired after [DEFAULT_TIMEOUT]. *)
Inductive fetch_outcome : Type :=
| Resolves (r : Response.t)
| Rejects (e : exn).

(** The world of a tool call.  [upstream] is the service as it answers while
    the call runs, and [clock] the readings of the wall clock in the order
    they are taken.  What a POST or a DELETE changes in the service for the
    calls that follow, and the time that passes between two calls, are not
    part of it. *)
Record world : Type := {
  (** [process.env.ALERTMANAGER_URL] *)
  ALERTMANAGER_URL : option string;
  (** what the upstream service answers to a request *)
  upstream : Request -> fetch_outcome;
  (** the i-th reading of [new Date().toISOString()] *)
  clock : nat -> string;
  clock_reads : nat;
  (** the requests issued so far, oldest first *)
  requests : list Request;
  (** the lines written by [console.error], oldest first *)
  stderr : list string
}.

Definition M (A : Type) : Type := world -> result A * world.

Definition ret {A} (a : A) : M A := fun w => (Ok a, w).
Definition throw {A} (e : exn) : M A := fun w => (Throw e, w).
Definition lift {A} (r : result A) : M A := fun w => (r, w).

Definition bind {A B} (m : M A) (k : A -> M B) : M B :=
  fun w =>
    match m w with
    | (Ok a, w') => k a w'
    | (Throw e, w') => (Throw e, w')
    end.

Notation "'do' x <- m ; k" := (bind m (fun x => k))
  (at level 10, x name, m at level 100, k at level 200).

(** [try { body } catch (error) { handler }] *)
Definition try_catch {A} (body : M A) (handler : exn -> M A) : M A :=
  fun w =>
    match body w with
    | (Ok a, w') => (Ok a, w')
    | (Throw e, w') => handler e w'
    end.

Definition log_request (rq : Request) (w : world) : world :=
  {| ALERTMANAGER_URL := ALERTMANAGER_URL w;
     upstream := upstream w;
     clock := clock w;
     clock_reads := clock_reads w;
     requests := requests w ++ [rq];
     stderr := stderr w |}.

Definition log_stderr (line : string) (w : world) : world :=
  {| ALERTMANAGER_URL := ALERTMANAGER_URL w;
     upstream := upstream w;
     clock := clock w;
     clock_reads := clock_reads w;
     requests := requests w;
     stderr := stderr w ++ [line] |}.

Definition tick (w : world) : world :=
  {| ALERTMANAGER_URL := ALERTMANAGER_URL w;
     upstream := upstream w;
     clock := clock w;
     clock_reads := S (clock_reads w);
     requests := requests w;
     stderr := stderr w |}.

(** [await fetch(url, init)]: one request leaves the process. *)
Definition fetch (url : string) (init : RequestInit) : M Response.t :=
  fun w =>
    let rq := {| url := url; init := init |} in
    match upstream w rq with
    | Resolves r => (Ok r, log_request rq w)
    | Rejects e => (Throw e, log_request rq w)
    end.

(** [console.error(line)] *)
Definition console_error (line : string) : M unit :=
  fun w => (Ok tt, log_stderr line w).

(** [new Date().toISOString()] *)
Definition Date_now_toISOString : M string :=
  fun w => (Ok (clock w (clock_reads w)), tick w).

(** Decimal rendering of a status code in a template literal. *)
Definition show_nat (n : nat) : string := NilEmpty.string_of_uint (Nat.to_uint n).

(** ** [fetchFromAlertmanager] *)

Definition DEFAULT_ALERTMANAGER_URL : string := "http://localhost:9093".

(** [process.env.ALERTMANAGER_URL || DEFAULT_ALERTMANAGER_URL] *)
Definition baseUrl (w : world) : string :=
  match ALERTMANAGER_URL w with
  | Some s => if nonempty s then s else DEFAULT_ALERTMANAGER_URL
  | None => DEFAULT_ALERTMANAGER_URL
  end.

Definition api_url (w : world) (path : string) : string :=
  baseUrl w ++ "/api/v2/" ++ path.

Definition fetchFromAlertmanager (path : string) (options : RequestInit) : M jsval :=
  fun w =>
    let url := api_url w path in
    try_catch
      (do response <- fetch url options;
       if negb (Response.ok response)
       then throw (Error ("Alertmanager API error: "
                          ++ show_nat (Response.status response) ++ " "
                          ++ Response.statusText response))
       else lift (Response.json response))
      (fun error =>
         do _ <- console_error ("Error fetching from Alertmanager: " ++ errorMessage error);
         throw error)
      w.

(** ** [URLSearchParams] *)

Definition hex_digit (n : nat) : ascii :=
  nth n ["0"; "1"; "2"; "3"; "4"; "5"; "6"; "7";
         "8"; "9"; "A"; "B"; "C"; "D"; "E"; "F"]%char "0"%char.

(** The bytes the application/x-www-form-urlencoded serializer leaves as they
    are: ASCII letters and digits, and [*], [-], [.], [_]. *)
Definition form_safe (c : ascii) : bool :=
  let n := nat_of_ascii c in
  ((48 <=? n) && (n <=? 57) || (65 <=? n) && (n <=? 90)
   || (97 <=? n) && (n <=? 122)
   || (n =? 42) || (n =? 45) || (n =? 46) || (n =? 95))%nat%bool.

Definition encode_byte (c : ascii) : string :=
  let n := nat_of_ascii c in
  if (n =? 32)%nat then "+"
  else if form_safe c then String c EmptyString
  else String "%" (String (hex_digit (n / 16)) (String (hex_digit (n mod 16)) EmptyString)).

(** The serializer's encoding of a text given by its UTF-8 bytes.  A
    JavaScript string with a lone surrogate has no UTF-8 bytes: the
    serializer encodes U+FFFD in its place, and such strings are outside
    this model. *)
Fixpoint urlencode (s : string) : string :=
  match s with
  | EmptyString => EmptyString
  | String c rest => encode_byte c ++ urlencode rest
  end.

Definition URLSearchParams : Type := list (string * string).

(** [params.append(k, v)] *)
Definition append (params : URLSearchParams) (k v : string) : URLSearchParams :=
  (params ++ [(k, v)])%list.

(** [params.toString()] *)
Definition URLSearchParams_toString (params : URLSearchParams) : string :=
  String.concat "&"
    (map (fun kv => urlencode (fst kv) ++ "=" ++ urlencode (snd kv)) params).

(** [`${prefix}${queryString ? '?' + queryString : ''}`] *)
Definition with_query (prefix queryString : string) : string :=
  prefix ++ (if nonempty queryString then "?" ++ queryString else "").

(** ** The result envelope *)

Record ContentBlock : Type := {
  type : string;
  text : string
}.

Record CallToolResult : Type := {
  content : list ContentBlock;
  isError : option bool
}.

(** [{ content: [{ type: "text", text }] }] *)
Definition text_result (t : string) : CallToolResult :=
  {| content := [{| type := "text"; text := t |}]; isError := None |}.

(** [{ content: [{ type: "text", text }], isError: true }] *)
Definition error_result (t : string) : CallToolResult :=
  {| content := [{| type := "text"; text := t |}]; isError := Some true |}.

(** ** Tool arguments *)

(** A default parameter value: [x = d] in a destructuring pattern. *)
Definition default {A} (d : A) (x : option A) : A :=
  match x with
  | Some a => a
  | None => d
  end.

Definition opt_str (x : option string) : jsval :=
  match x with
  | Some s => VStr s
  | None => VUndefined
  end.

Definition opt_bool (x : option bool) : jsval :=
  match x with
  | Some b => VBool b
  | None => VUndefined
  end.

Module Matcher.
Record t : Type := {
  name : string;
  value : string;
  isRegex : option bool
}.
End Matcher.

(** ** The handlers *)

Section Handlers.

Context (rt : Runtime).

(** get-alerts: the query parameters, after the defaults
    [silenced = false, inhibited = false, active = true]. *)
Definition alerts_params (filter : option string) (silenced inhibited active : bool)
  : URLSearchParams :=
  let params := [] in
  let params := match filter with
                | Some f => if nonempty f then append params "filter" f else params
                | None => params
                end in
  let params := if silenced then append params "silenced" "true" else params in
  let params := if inhibited then append params "inhibited" "true" else params in
  let params := if negb active then append params "active" "false" else params in
  params.

Definition alerts_path (filter : option string) (silenced inhibited active : option bool)
  : string :=
  with_query "alerts"
    (URLSearchParams_toString
       (alerts_params filter (default false silenced) (default false inhibited)
          (default true active))).

(** The projection of one alert to a [FormattedAlert]. *)
Definition formatAlert (alert : jsval) : result jsval :=
  let? fingerprint := get alert "fingerprint" in
  let? labels := get alert "labels" in
  let? alertname := get labels "alertname" in
  let? labels1 := get alert "labels" in
  let? severity := get labels1 "severity" in
  let? annotations := get alert "annotations" in
  let? summary := get annotations "summary" in
  let? annotations1 := get alert "annotations" in
  let? description := get annotations1 "description" in
  let? startsAt := get alert "startsAt" in
  let? status := get alert "status" in
  let? state := get status "state" in
  let? status1 := get alert "status" in
  let? silencedBy := get status1 "silencedBy" in
  let? silenced := length_gt0 rt silencedBy in
  let? status2 := get alert "status" in
  let? inhibitedBy := get status2 "inhibitedBy" in
  let? inhibited := length_gt0 rt inhibitedBy in
  let? labels2 := get alert "labels" in
  Ok (VObj [("fingerprint", fingerprint);
            ("alertname", alertname);
            ("severity", or_else severity (VStr "unknown"));
            ("summary", or_else summary (VStr "No summary provided"));
            ("description", or_else description (VStr "No description provided"));
            ("startsAt", startsAt);
            ("status", VObj [("state", state);
                             ("silenced", VBool silenced);
                             ("inhibited", VBool inhibited)]);
            ("labels", labels2)]).

Definition get_alerts (filter : option string) (silenced inhibited active : option bool)
  : M CallToolResult :=
  try_catch
    (let path := alerts_path filter silenced inhibited active in
     do alerts <- fetchFromAlertmanager path no_options;
     do formattedAlerts <- lift (array_map "alerts" formatAlert alerts);
     ret (text_result (JSON_stringify rt formattedAlerts)))
    (fun error => ret (error_result ("Error fetching alerts: " ++ errorMessage error))).

(** get-alert-details: the unprojected fields of the alert found. *)
Definition alert_details (alert : jsval) : result jsval :=
  let? fingerprint := get alert "fingerprint" in
  let? labels := get alert "labels" in
  let? alertname := get labels "alertname" in
  let? labels1 := get alert "labels" in
  let? annotations := get alert "annotations" in
  let? startsAt := get alert "startsAt" in
  let? endsAt := get alert "endsAt" in
  let? generatorURL := get alert "generatorURL" in
  let? status := get alert "status" in
  Ok (VObj [("fingerprint", fingerprint);
            ("alertname", alertname);
            ("labels", labels1);
            ("annotations", annotations);
            ("startsAt", startsAt);
            ("endsAt", endsAt);
            ("generatorURL", generatorURL);
            ("status", status)]).

(** [(a) => a.fingerprint === fingerprint] *)
Definition has_fingerprint (fingerprint : string) (a : jsval) : result bool :=
  let? fp := get a "fingerprint" in
  Ok (strict_eq_str fp fingerprint).

Definition not_found_message (fingerprint : string) : string :=
  "Alert with fingerprint " ++ fingerprint ++ " not found".

Definition get_alert_details (fingerprint : string) : M CallToolResult :=
  try_catch
    (do alerts <- fetchFromAlertmanager "alerts" no_options;
     do alert <- lift (array_find "alerts" (has_fingerprint fingerprint) alerts);
     if negb (truthy alert)
     then ret (error_result (not_found_message fingerprint))
     else
       do details <- lift (alert_details alert);
       ret (text_result (JSON_stringify rt details)))
    (fun error =>
       ret (error_result ("Error fetching alert details: " ++ errorMessage error))).

(** create-silence: one matcher of the request body. *)
Definition body_matcher (m : Matcher.t) : jsval :=
  VObj [("name", VStr (Matcher.name m));
        ("value", VStr (Matcher.value m));
        ("isRegex", or_else (opt_bool (Matcher.isRegex m)) (VBool false))].

Definition silenceData (matchers : list Matcher.t) (startsAt : option string)
    (endsAt createdBy comment now : string) : jsval :=
  VObj [("matchers", VArr (map body_matcher matchers));
        ("startsAt", or_else (opt_str startsAt) (VStr now));
        ("endsAt", VStr endsAt);
        ("createdBy", VStr createdBy);
        ("comment", VStr comment)].

Definition post_json (data : jsval) : RequestInit :=
  {| method := Some "POST";
     headers := [("Content-Type", "application/json")];
     body := Some (JSON_stringify rt data) |}.

Definition create_silence (matchers : list Matcher.t) (startsAt : option string)
    (endsAt createdBy comment : string) : M CallToolResult :=
  try_catch
    (do now <- Date_now_toISOString;
     let data := silenceData matchers startsAt endsAt createdBy comment now in
     do response <- fetchFromAlertmanager "silences" (post_json data);
     do id <- lift (let? silenceID := get response "silenceID" in
                    template rt silenceID);
     ret (text_result ("Successfully created silence with ID: " ++ id)))
    (fun error => ret (error_result ("Error creating silence: " ++ errorMessage error))).

(** get-silences *)
Definition silences_params (filter : option string) : URLSearchParams :=
  let params := [] in
  match filter with
  | Some f => if nonempty f then append params "filter" f else params
  | None => params
  end.

Definition formatSilence (silence : jsval) : result jsval :=
  let? id := get silence "id" in
  let? status := get silence "status" in
  let? state := get status "state" in
  let? createdBy := get silence "createdBy" in
  let? comment := get silence "comment" in
  let? startsAt := get silence "startsAt" in
  let? endsAt := get silence "endsAt" in
  let? matchers := get silence "matchers" in
  Ok (VObj [("id", id);
            ("status", state);
            ("createdBy", createdBy);
            ("comment", comment);
            ("startsAt", startsAt);
            ("endsAt", endsAt);
            ("matchers", matchers)]).

Definition get_silences (filter : option string) : M CallToolResult :=
  try_catch
    (let path := with_query "silences" (URLSearchParams_toString (silences_params filter)) in
     do silences <- fetchFromAlertmanager path no_options;
     do formattedSilences <- lift (array_map "silences" formatSilence silences);
     ret (text_result (JSON_stringify rt formattedSilences)))
    (fun error => ret (error_result ("Error fetching silences: " ++ errorMessage error))).

(** delete-silence *)
Definition delete_options : RequestInit :=
  {| method := Some "DELETE"; headers := []; body := None |}.

Definition delete_silence (silenceId : string) : M CallToolResult :=
  try_catch
    (do _ <- fetchFromAlertmanager ("silence/" ++ silenceId) delete_options;
     ret (text_result ("Successfully deleted silence with ID: " ++ silenceId)))
    (fun error => ret (error_result ("Error deleting silence: " ++ errorMessage error))).

(** get-alert-groups: the query parameters, after the defaults
    [active = true, silenced = false, inhibited = false]. *)
Definition groups_params (active silenced inhibited : bool) : URLSearchParams :=
  let params := [] in
  let params := if negb active then append params "active" "false" else params in
  let params := if silenced then append params "silenced" "true" else params in
  let params := if inhibited then append params "inhibited" "true" else params in
  params.

Definition groups_path (active silenced inhibited : option bool) : string :=
  with_query "alerts/groups"
    (URLSearchParams_toString
       (groups_params (default true active) (default false silenced)
          (default false inhibited))).

Definition get_alert_groups (active silenced inhibited : option bool)
  : M CallToolResult :=
  try_catch
    (let path := groups_path active silenced inhibited in
     do groups <- fetchFromAlertmanager path no_options;
     ret (text_result (JSON_stringify rt groups)))
    (fun error =>
       ret (error_result ("Error fetching alert groups: " ++ errorMessage error))).

(** The six registered tools with their validated arguments, and the
    dispatch of [server.tool]. *)
Inductive invocation : Type :=
| GetAlerts (filter : option string) (silenced inhibited active : option bool)
| GetAlertDetails (fingerprint : string)
| CreateSilence (matchers : list Matcher.t) (startsAt : option string)
    (endsAt createdBy comment : string)
| GetSilences (filter : option string)
| DeleteSilence (silenceId : string)
| GetAlertGroups (active silenced inhibited : option bool).

Definition tool_name (i : invocation) : string :=
  match i with
  | GetAlerts _ _ _ _ => "get-alerts"
  | GetAlertDetails _ => "get-alert-details"
  | CreateSilence _ _ _ _ _ => "create-silence"
  | GetSilences _ => "get-silences"
  | DeleteSilence _ => "delete-silence"
  | GetAlertGroups _ _ _ => "get-alert-groups"
  end.

Definition call_tool (i : invocation) : M CallToolResult :=
  match i with
  | GetAlerts filter silenced inhibited active =>
      get_alerts filter silenced inhibited active
  | GetAlertDetails fingerprint => get_alert_details fingerprint
  | CreateSilence matchers startsAt endsAt createdBy comment =>
      create_silence matchers startsAt endsAt createdBy comment
  | GetSilences filter => get_silences filter
  | DeleteSilence silenceId => delete_silence silenceId
  | GetAlertGroups active silenced inhibited =>
      get_alert_groups active silenced inhibited
  end.

End Handlers.

(** ** The zod shape of create-silence *)

Inductive ZodType : Type :=
| z_string
| z_boolean
| z_optional (inner : ZodType)
| z_array (element : ZodType)
| z_object (shape : list (string * ZodType)).

(** Whether [t.safeParse(v)] succeeds.  An object schema reads each key of
    its shape off the input (a missing key reads as [undefined]) and ignores
    the other keys. *)
Fixpoint accepts (t : ZodType) (v : jsval) {struct t} : bool :=
  match t with
  | z_string => match v with VStr _ => true | _ => false end
  | z_boolean => match v with VBool _ => true | _ => false end
  | z_optional inner => match v with VUndefined => true | _ => accepts inner v end
  | z_array element =>
      match v with
      | VArr elems => forallb (accepts element) elems
      | _ => false
      end
  | z_object shape =>
      match v with
      | VObj fields =>
          (fix all (sh : list (string * ZodType)) : bool :=
             match sh with
             | [] => true
             | (k, t') :: rest =>
                 accepts t' (match assoc k fields with Some x => x | None => VUndefined end)
                 && all rest
             end) shape
      | _ => false
      end
  end.

Definition matcher_shape : ZodType :=
  z_object [("name", z_string);
            ("value", z_string);
            ("isRegex", z_optional z_boolean)].

Definition create_silence_shape : ZodType :=
  z_object [("matchers", z_array matcher_shape);
            ("startsAt", z_optional z_string);
            ("endsAt", z_string);
            ("createdBy", z_string);
            ("comment", z_string)].

(** An optional property is written only when it is given. *)
Definition optional_field (k : string) (x : option jsval) : list (string * jsval) :=
  match x with
  | Some v => [(k, v)]
  | None => []
  end.

(** The arguments object of a create-silence call, as the host receives it. *)
Definition matcher_arg (m : Matcher.t) : jsval :=
  VObj ([("name", VStr (Matcher.name m)); ("value", VStr (Matcher.value m))]
        ++ optional_field "isRegex" (option_map VBool (Matcher.isRegex m)))%list.

Definition create_silence_args (matchers : list Matcher.t) (startsAt : option string)
    (endsAt createdBy comment : string) : jsval :=
  VObj ([("matchers", VArr (map matcher_arg matchers))]
        ++ optional_field "startsAt" (option_map VStr startsAt)
        ++ [("endsAt", VStr endsAt);
            ("createdBy", VStr createdBy);
            ("comment", VStr comment)])%list.

(** ** Alerts as the source types them *)

Module AlertStatus.
Record t : Type := {
  state : string;
  silencedBy : list string;
  inhibitedBy : list string
}.
End AlertStatus.

Module Alert.
Record t : Type := {
  fingerprint : string;
  status : AlertStatus.t;
  labels : list (string * string);
  annotations : list (string * string);
  startsAt : string;
  endsAt : string;
  generatorURL : string
}.
End Alert.

(** A string-to-string mapping ([AlertLabel], [AlertAnnotation]) as a value. *)
Definition strings_json (m : list (string * string)) : jsval :=
  VObj (map (fun kv => (fst kv, VStr (snd kv))) m).

Definition AlertStatus_json (s : AlertStatus.t) : jsval :=
  VObj [("state", VStr (AlertStatus.state s));
        ("silencedBy", VArr (map VStr (AlertStatus.silencedBy s)));
        ("inhibitedBy", VArr (map VStr (AlertStatus.inhibitedBy s)))].

(** The parsed JSON of an upstream alert of type [Alert]. *)
Definition Alert_json (a : Alert.t) : jsval :=
  VObj [("fingerprint", VStr (Alert.fingerprint a));
        ("status", AlertStatus_json (Alert.status a));
        ("labels", strings_json (Alert.labels a));
        ("annotations", strings_json (Alert.annotations a));
        ("startsAt", VStr (Alert.startsAt a));
        ("endsAt", VStr (Alert.endsAt a));
        ("generatorURL", VStr (Alert.generatorURL a))].

(** ** Reading results *)

(** [v.k1.k2...] *)
Fixpoint get_path (v : jsval) (ks : list string) : result jsval :=
  match ks with
  | [] => Ok v
  | k :: rest => let? x := get v k in get_path x rest
  end.

(** [sub] occurs in [s]. *)
Definition contains (s sub : string) : Prop :=
  exists before after, s = before ++ sub ++ after.

(** The request a call to [fetchFromAlertmanager] puts on the wire. *)
Definition api_request (w : world) (path : string) (options : RequestInit) : Request :=
  {| url := api_url w path; init := options |}.

(** The line [fetchFromAlertmanager] writes to standard error on a failure. *)
Definition failure_line (e : exn) : string :=
  "Error fetching from Alertmanager: " ++ errorMessage e.

(** The error a non-2xx response is turned into. *)
Definition status_error (r : Response.t) : exn :=
  Error ("Alertmanager API error: " ++ show_nat (Response.status r) ++ " "
         ++ Response.statusText r).

(** ** Instances for the examples *)

(** The theorems hold for every runtime; the examples are run with this one,
    which renders a value by its kind. *)
Definition example_runtime : Runtime :=
  {| JSON_stringify := fun v =>
       match v with
       | VArr _ => "[array]"
       | VObj _ => "{object}"
       | _ => "primitive"
       end;
     ToString := fun _ => Ok "[object Object]";
     ToNumber_gt0 := fun _ => Ok false |}.

Definition example_world (answer : Request -> fetch_outcome) : world :=
  {| ALERTMANAGER_URL := None;
     upstream := answer;
     clock := fun _ => "2026-01-01T00:00:00.000Z";
     clock_reads := 0;
     requests := [];
     stderr := [] |}.

Definition answers (status : nat) (statusText : string) (json : result jsval)
  : Request -> fetch_outcome :=
  fun _ => Resolves {| Response.status := status;
                       Response.statusText := statusText;
                       Response.json := json |}.

(** What [fetch] rejects with when the abort signal fires after
    [DEFAULT_TIMEOUT]. *)
Definition abort_error : exn := ErrorObject "AbortError" "This operation was aborted".

(** What [response.json()] rejects with on an empty body. *)
Definition unexpected_end : exn :=
  ErrorObject "SyntaxError" "Unexpected end of JSON input".

Definition firing_alert : Alert.t :=
  {| Alert.fingerprint := "a1b2c3";
     Alert.status := {| AlertStatus.state := "suppressed";
                        AlertStatus.silencedBy := ["silence-1"];
                        AlertStatus.inhibitedBy := [] |};
     Alert.labels := [("alertname", "HighCPULoad"); ("severity", "critical")];
     Alert.annotations := [("summary", "CPU above 90%"); ("runbook", "wiki/cpu")];
     Alert.startsAt := "2026-01-01T00:00:00.000Z";
     Alert.endsAt := "2026-01-01T01:00:00.000Z";
     Alert.generatorURL := "http://prometheus:9090/graph" |}.

(** An alert whose severity label and summary and description annotations
    are present and empty. *)
Definition blank_alert : Alert.t :=
  {| Alert.fingerprint := "d4e5f6";
     Alert.status := {| AlertStatus.state := "active";
                        AlertStatus.silencedBy := [];
                        AlertStatus.inhibitedBy := [] |};
     Alert.labels := [("alertname", "Watchdog"); ("severity", "")];
     Alert.annotations := [("summary", ""); ("description", "")];
     Alert.startsAt := "2026-01-01T00:00:00.000Z";
     Alert.endsAt := "0001-01-01T00:00:00.000Z";
     Alert.generatorURL := "" |}.

Definition alerts_answer (alerts : list Alert.t) : Request -> fetch_outcome :=
  answers 200 "OK" (Ok (VArr (map Alert_json alerts))).


(** The fields of a [FormattedAlert] and of its status. *)
Definition FormattedAlert_keys : list string :=
  ["fingerprint"; "alertname"; "severity"; "summary"; "description";
   "startsAt"; "status"; "labels"].

Definition FormattedAlert_status_keys : list string :=
  ["state"; "silenced"; "inhibited"].

(** ** The tools as one call to the client each *)

Definition silences_path (filter : option string) : string :=
  with_query "silences" (URLSearchParams_toString (silences_params filter)).

(** The path a tool passes to [fetchFromAlertmanager]. *)
Definition tool_path (i : invocation) : string :=
  match i with
  | GetAlerts filter silenced inhibited active =>
      alerts_path filter silenced inhibited active
  | GetAlertDetails _ => "alerts"
  | CreateSilence _ _ _ _ _ => "silences"
  | GetSilences filter => silences_path filter
  | DeleteSilence silenceId => "silence/" ++ silenceId
  | GetAlertGroups active silenced inhibited => groups_path active silenced inhibited
  end.

(** The options it passes; create-silence serializes its data with the clock
    reading of the moment. *)
Definition tool_options (rt : Runtime) (i : invocation) (w : world) : RequestInit :=
  match i with
  | CreateSilence matchers startsAt endsAt createdBy comment =>
      post_json rt (silenceData matchers startsAt endsAt createdBy comment
                      (clock w (clock_reads w)))
  | DeleteSilence _ => delete_options
  | _ => no_options
  end.

(** The world in which the tool makes its call: create-silence has read the
    clock by then. *)
Definition before_call (i : invocation) (w : world) : world :=
  match i with
  | CreateSilence _ _ _ _ _ => tick w
  | _ => w
  end.

(** The text each catch clause puts before the error message. *)
Definition error_prefix (i : invocation) : string :=
  match i with
  | GetAlerts _ _ _ _ => "Error fetching alerts: "
  | GetAlertDetails _ => "Error fetching alert details: "
  | CreateSilence _ _ _ _ _ => "Error creating silence: "
  | GetSilences _ => "Error fetching silences: "
  | DeleteSilence _ => "Error deleting silence: "
  | GetAlertGroups _ _ _ => "Error fetching alert groups: "
  end.

(** What a tool does with the value the client returned, up to its [return]
    or to the exception that takes it to its catch clause. *)
Definition reshape (rt : Runtime) (i : invocation) (v : jsval) : result CallToolResult :=
  match i with
  | GetAlerts _ _ _ _ =>
      let? formattedAlerts := array_map "alerts" (formatAlert rt) v in
      Ok (text_result (JSON_stringify rt formattedAlerts))
  | GetAlertDetails fingerprint =>
      let? alert := array_find "alerts" (has_fingerprint fingerprint) v in
      if negb (truthy alert)
      then Ok (error_result (not_found_message fingerprint))
      else
        let? details := alert_details alert in
        Ok (text_result (JSON_stringify rt details))
  | CreateSilence _ _ _ _ _ =>
      let? silenceID := get v "silenceID" in
      let? id := template rt silenceID in
      Ok (text_result ("Successfully created silence with ID: " ++ id))
  | GetSilences _ =>
      let? formattedSilences := array_map "silences" formatSilence v in
      Ok (text_result (JSON_stringify rt formattedSilences))
  | DeleteSilence silenceId =>
      Ok (text_result ("Successfully deleted silence with ID: " ++ silenceId))
  | GetAlertGroups _ _ _ => Ok (text_result (JSON_stringify rt v))
  end.

(** The envelope a tool returns, given the outcome of its client call. *)
Definition finish (rt : Runtime) (i : invocation) (r : result jsval) : CallToolResult :=
  match rbind r (reshape rt i) with
  | Ok env => env
  | Throw e => error_result (error_prefix i ++ errorMessage e)
  end.

(** The error [fetchFromAlertmanager] throws for the answer to request [rq],
    if it throws. *)
Definition client_failure (w : world) (rq : Request) : option exn :=
  match upstream w rq with
  | Rejects e => Some e
  | Resolves r =>
      if Response.ok r
      then match Response.json r with
           | Ok _ => None
           | Throw e => Some e
           end
      else Some (Error ("Alertmanager API error: " ++ show_nat (Response.status r)
                        ++ " " ++ Response.statusText r))
  end.

(** ** Silences as the source types them *)

Module SilenceMatcher.
Record t : Type := {
  name : string;
  value : string;
  isRegex : bool
}.
End SilenceMatcher.

Module SilenceStatus.
Record t : Type := {
  state : string
}.
End SilenceStatus.

Module Silence.
Record t : Type := {
  id : string;
  status : SilenceStatus.t;
  createdBy : string;
  comment : string;
  startsAt : string;
  endsAt : string;
  matchers : list SilenceMatcher.t
}.
End Silence.

Definition SilenceMatcher_json (m : SilenceMatcher.t) : jsval :=
  VObj [("name", VStr (SilenceMatcher.name m));
        ("value", VStr (SilenceMatcher.value m));
        ("isRegex", VBool (SilenceMatcher.isRegex m))].

(** The parsed JSON of an upstream silence of type [Silence]. *)
Definition Silence_json (s : Silence.t) : jsval :=
  VObj [("id", VStr (Silence.id s));
        ("status", VObj [("state", VStr (SilenceStatus.state (Silence.status s)))]);
        ("createdBy", VStr (Silence.createdBy s));
        ("comment", VStr (Silence.comment s));
        ("startsAt", VStr (Silence.startsAt s));
        ("endsAt", VStr (Silence.endsAt s));
        ("matchers", VArr (map SilenceMatcher_json (Silence.matchers s)))].

Definition is_array (v : jsval) : bool :=
  match v with
  | VArr _ => true
  | _ => false
  end.

Definition expired_silence : Silence.t :=
  {| Silence.id := "3c1d";
     Silence.status := {| SilenceStatus.state := "expired" |};
     Silence.createdBy := "admin";
     Silence.comment := "maintenance";
     Silence.startsAt := "2026-01-01T00:00:00.000Z";
     Silence.endsAt := "2026-01-01T02:00:00.000Z";
     Silence.matchers := [{| SilenceMatcher.name := "instance";
                             SilenceMatcher.value := "node-.*";
                             SilenceMatcher.isRegex := true |}] |}.

(** ** Reading query strings *)

Fixpoint string_forallb (p : ascii -> bool) (s : string) : bool :=
  match s with
  | EmptyString => true
  | String c rest => p c && string_forallb p rest
  end.

Fixpoint count_char (c : ascii) (s : string) : nat :=
  match s with
  | EmptyString => 0
  | String c' rest => (if Ascii.eqb c c' then 1 else 0) + count_char c rest
  end.

(** The characters a serialized name or value is made of. *)
Definition encoded_char (c : ascii) : bool :=
  form_safe c || Ascii.eqb c "+" || Ascii.eqb c "%".

Definition is_hex (c : ascii) : bool :=
  let n := nat_of_ascii c in
  ((48 <=? n) && (n <=? 57) || (65 <=? n) && (n <=? 70)
   || (97 <=? n) && (n <=? 102))%nat%bool.

Definition hex_value (c : ascii) : nat :=
  let n := nat_of_ascii c in
  if (n <=? 57)%nat then n - 48
  else if (n <=? 70)%nat then n - 55
  else n - 87.

(** The reading of an encoded name or value that a form-urlencoded parser
    makes: [+] is a space, [%] followed by two hexadecimal digits is the byte
    they write, every other character is itself. *)
Fixpoint urldecode (s : string) : string :=
  match s with
  | EmptyString => EmptyString
  | String c rest =>
      if Ascii.eqb c "+" then String " " (urldecode rest)
      else if Ascii.eqb c "%" then
        match rest with
        | String h (String l rest') =>
            if is_hex h && is_hex l
            then String (ascii_of_nat (16 * hex_value h + hex_value l)) (urldecode rest')
            else String c (urldecode rest)
        | _ => String c (urldecode rest)
        end
      else String c (urldecode rest)
  end.

(** ** The zod shapes of the other tools *)

Definition get_alerts_shape : ZodType :=
  z_object [("filter", z_optional z_string);
            ("silenced", z_optional z_boolean);
            ("inhibited", z_optional z_boolean);
            ("active", z_optional z_boolean)].

Definition get_alert_details_shape : ZodType :=
  z_object [("fingerprint", z_string)].

Definition get_silences_shape : ZodType :=
  z_object [("filter", z_optional z_string)].

Definition delete_silence_shape : ZodType :=
  z_object [("silenceId", z_string)].

Definition get_alert_groups_shape : ZodType :=
  z_object [("active", z_optional z_boolean);
            ("silenced", z_optional z_boolean);
            ("inhibited", z_optional z_boolean)].

Definition tool_shape (i : invocation) : ZodType :=
  match i with
  | GetAlerts _ _ _ _ => get_alerts_shape
  | GetAlertDetails _ => get_alert_details_shape
  | CreateSilence _ _ _ _ _ => create_silence_shape
  | GetSilences _ => get_silences_shape
  | DeleteSilence _ => delete_silence_shape
  | GetAlertGroups _ _ _ => get_alert_groups_shape
  end.

(** The arguments object of a call, as the host receives it. *)
Definition arguments (i : invocation) : jsval :=
  match i with
  | GetAlerts filter silenced inhibited active =>
      VObj (optional_field "filter" (option_map VStr filter)
            ++ optional_field "silenced" (option_map VBool silenced)
            ++ optional_field "inhibited" (option_map VBool inhibited)
            ++ optional_field "active" (option_map VBool active))%list
  | GetAlertDetails fingerprint => VObj [("fingerprint", VStr fingerprint)]
  | CreateSilence matchers startsAt endsAt createdBy comment =>
      create_silence_args matchers startsAt endsAt createdBy comment
  | GetSilences filter => VObj (optional_field "filter" (option_map VStr filter))
  | DeleteSilence silenceId => VObj [("silenceId", VStr silenceId)]
  | GetAlertGroups active silenced inhibited =>
      VObj (optional_field "active" (option_map VBool active)
            ++ optional_field "silenced" (option_map VBool silenced)
            ++ optional_field "inhibited" (option_map VBool inhibited))%list
  end.

(** ** A runtime that prints *)

Definition dq : string := String (ascii_of_nat 34) EmptyString.
Definition nl : string := String (ascii_of_nat 10) EmptyString.
Definition backslash : ascii := ascii_of_nat 92.

Definition hex_lower (n : nat) : ascii :=
  nth n ["0"; "1"; "2"; "3"; "4"; "5"; "6"; "7";
         "8"; "9"; "a"; "b"; "c"; "d"; "e"; "f"]%char "0"%char.

(** One character inside a JSON string: the quote, the backslash and the
    control characters are escaped. *)
Definition escape_char (c : ascii) : string :=
  let n := nat_of_ascii c in
  if (n =? 34)%nat then String backslash dq
  else if (n =? 92)%nat then String backslash (String backslash EmptyString)
  else if (n =? 8)%nat then String backslash "b"
  else if (n =? 12)%nat then String backslash "f"
  else if (n =? 10)%nat then String backslash "n"
  else if (n =? 13)%nat then String backslash "r"
  else if (n =? 9)%nat then String backslash "t"
  else if (n <? 32)%nat
       then String backslash
              (String "u" (String "0" (String "0"
                 (String (hex_lower (n / 16))
                    (String (hex_lower (n mod 16)) EmptyString)))))
  else String c EmptyString.

Fixpoint escape (s : string) : string :=
  match s with
  | EmptyString => EmptyString
  | String c rest => escape_char c ++ escape rest
  end.

Definition quote (s : string) : string := dq ++ escape s ++ dq.

(** [JSON.stringify(v, null, 2)] on values without numbers: two spaces per
    level, one element or property per line, properties in their order, a
    property whose value is [undefined] left out, [undefined] in an array
    printed as null.  Numbers are outside what this instance prints. *)
Fixpoint JSON_text (indent : string) (v : jsval) {struct v} : string :=
  let inner := indent ++ "  " in
  match v with
  | VUndefined | VNull => "null"
  | VBool true => "true"
  | VBool false => "false"
  | VNum _ => "0"
  | VStr s => quote s
  | VArr elems =>
      match elems with
      | [] => "[]"
      | _ :: _ =>
          "[" ++ nl
          ++ String.concat ("," ++ nl)
               ((fix items (l : list jsval) : list string :=
                   match l with
                   | [] => []
                   | x :: rest => (inner ++ JSON_text inner x) :: items rest
                   end) elems)
          ++ nl ++ indent ++ "]"
      end
  | VObj fields =>
      match (fix props (l : list (string * jsval)) : list string :=
               match l with
               | [] => []
               | (k, x) :: rest =>
                   match x with
                   | VUndefined => props rest
                   | _ => (inner ++ quote k ++ ": " ++ JSON_text inner x) :: props rest
                   end
               end) fields with
      | [] => "{}"
      | ps => "{" ++ nl ++ String.concat ("," ++ nl) ps ++ nl ++ indent ++ "}"
      end
  end.

Definition printing_runtime : Runtime :=
  {| JSON_stringify := JSON_text "";
     ToString := fun _ => Ok "[object Object]";
     ToNumber_gt0 := fun _ => Ok false |}.

(** The lines of a text. *)
Definition text_of_lines (lines : list string) : string := String.concat nl lines.

(** * Properties *)

(** ** The upstream client *)

Lemma ok_range (r : Response.t) :
  Response.ok r = true <-> 200 <= Response.status r <= 299.
Proof.
  unfold Response.ok. rewrite andb_true_iff, !Nat.leb_le. tauto.
Qed.

(** What one call does, by the outcome of its single [fetch]. *)
Lemma fetchFromAlertmanager_eq (path : string) (options : RequestInit) (w : world) :
  fetchFromAlertmanager path options w =
  let rq := api_request w path options in
  let sent := log_request rq w in
  match upstream w rq with
  | Rejects e => (Throw e, log_stderr (failure_line e) sent)
  | Resolves r =>
      if Response.ok r
      then match Response.json r with
           | Ok v => (Ok v, sent)
           | Throw e => (Throw e, log_stderr (failure_line e) sent)
           end
      else (Throw (status_error r), log_stderr (failure_line (status_error r)) sent)
  end.
Proof.
  unfold fetchFromAlertmanager, try_catch, bind, fetch, api_request; cbn.
  destruct (upstream w _) as [r | e]; cbn; [ | reflexivity ].
  destruct (Response.ok r); cbn; [ | reflexivity ].
  unfold lift. destruct (Response.json r); reflexivity.
Qed.

Lemma requests_log_stderr (line : string) (w : world) :
  requests (log_stderr line w) = requests w.
Proof. reflexivity. Qed.

Lemma fetchFromAlertmanager_requests (path : string) (options : RequestInit) (w : world) :
  requests (snd (fetchFromAlertmanager path options w))
  = (requests w ++ [api_request w path options])%list.
Proof.
  rewrite fetchFromAlertmanager_eq; cbn.
  destruct (upstream w _) as [r | e]; [ | reflexivity ].
  destruct (Response.ok r); [ | reflexivity ].
  destruct (Response.json r); reflexivity.
Qed.

Lemma append_empty_r (s : string) : s ++ "" = s.
Proof. induction s as [ | c s IH]; cbn; [ reflexivity | now rewrite IH ]. Qed.

Lemma contains_suffix (before sub : string) : contains (before ++ sub) sub.
Proof. exists before, "". now rewrite append_empty_r. Qed.

Lemma contains_intro (before sub after : string) :
  contains (before ++ sub ++ after) sub.
Proof. exists before, after. reflexivity. Qed.

(** A non-2xx response is classified by its status code and text. *)
Lemma fetchFromAlertmanager_bad_status (path : string) (options : RequestInit)
    (w : world) (r : Response.t) :
  upstream w (api_request w path options) = Resolves r ->
  Response.ok r = false ->
  fst (fetchFromAlertmanager path options w) = Throw (status_error r).
Proof.
  intros Hup Hok. rewrite fetchFromAlertmanager_eq; cbn.
  rewrite Hup, Hok. reflexivity.
Qed.

Lemma fetchFromAlertmanager_parsed (path : string) (options : RequestInit)
    (w : world) (r : Response.t) :
  upstream w (api_request w path options) = Resolves r ->
  Response.ok r = true ->
  fetchFromAlertmanager path options w =
  match Response.json r with
  | Ok v => (Ok v, log_request (api_request w path options) w)
  | Throw e =>
      (Throw e, log_stderr (failure_line e) (log_request (api_request w path options) w))
  end.
Proof.
  intros Hup Hok. rewrite fetchFromAlertmanager_eq; cbn.
  rewrite Hup, Hok. reflexivity.
Qed.

(** delete-silence, by the outcome of its call to the client. *)
Lemma delete_silence_eq (silenceId : string) (w : world) :
  delete_silence silenceId w =
  match fetchFromAlertmanager ("silence/" ++ silenceId) delete_options w with
  | (Ok _, w') =>
      (Ok (text_result ("Successfully deleted silence with ID: " ++ silenceId)), w')
  | (Throw e, w') =>
      (Ok (error_result ("Error deleting silence: " ++ errorMessage e)), w')
  end.
Proof.
  unfold delete_silence, try_catch, bind.
  destruct (fetchFromAlertmanager _ _ w) as [[v | e] w']; reflexivity.
Qed.

(** C8: the client makes exactly one request; it returns a value exactly when
    the response has a 2xx status and its body parses, and then returns the
    parsed value; a non-2xx status is thrown as an error whose message holds
    the status code and the status text; a 2xx response whose body does not
    parse is thrown as the parse error; a 404 answer to delete-silence comes
    back as an error envelope whose text holds 404. *)
Theorem fetchFromAlertmanager_single_attempt_classified
    (path : string) (options : RequestInit) (w : world) :
  let rq := api_request w path options in
  let out := fetchFromAlertmanager path options w in
  requests (snd out) = (requests w ++ [rq])%list
  /\ (forall v, fst out = Ok v <->
        exists r, upstream w rq = Resolves r
                  /\ 200 <= Response.status r <= 299
                  /\ Response.json r = Ok v)
  /\ (forall r, upstream w rq = Resolves r ->
        ~ 200 <= Response.status r <= 299 ->
        fst out = Throw (ErrorObject "Error"
                           ("Alertmanager API error: " ++ show_nat (Response.status r)
                            ++ " " ++ Response.statusText r)))
  /\ (forall r e, upstream w rq = Resolves r ->
        200 <= Response.status r <= 299 ->
        Response.json r = Throw e ->
        fst out = Throw e)
  /\ (forall silenceId r,
        upstream w (api_request w ("silence/" ++ silenceId) delete_options) = Resolves r ->
        Response.status r = 404 ->
        exists msg, fst (delete_silence silenceId w) = Ok (error_result msg)
                    /\ isError (error_result msg) = Some true
                    /\ contains msg "404").
Proof.
  cbn zeta. split; [ apply fetchFromAlertmanager_requests | ].
  split; [ | split; [ | split ] ].
  - intro v. rewrite fetchFromAlertmanager_eq; cbn. split.
    + destruct (upstream w _) as [r | e]; [ | discriminate ].
      destruct (Response.ok r) eqn:Hok; [ | discriminate ].
      destruct (Response.json r) as [v' | e] eqn:Hj; [ | discriminate ].
      cbn. intros [= <-]. exists r. rewrite <- ok_range. auto.
    + intros (r & -> & Hok & Hj). apply ok_range in Hok. rewrite Hok, Hj. reflexivity.
  - intros r Hup Hbad. apply fetchFromAlertmanager_bad_status; [ exact Hup | ].
    destruct (Response.ok r) eqn:Hok; [ | reflexivity ].
    apply ok_range in Hok. contradiction.
  - intros r e Hup Hok Hj. apply ok_range in Hok.
    rewrite (fetchFromAlertmanager_parsed _ _ _ _ Hup Hok), Hj. reflexivity.
  - intros silenceId r Hup H404.
    assert (Hbad : Response.ok r = false) by (unfold Response.ok; rewrite H404; reflexivity).
    pose proof (fetchFromAlertmanager_bad_status _ _ _ _ Hup Hbad) as Hthrow.
    rewrite delete_silence_eq.
    destruct (fetchFromAlertmanager _ _ w) as [[v | e] w']; cbn in Hthrow;
      [ discriminate | ].
    injection Hthrow as ->. eexists. split; [ reflexivity | ]. split; [ reflexivity | ].
    unfold status_error, Error; cbn [errorMessage]. rewrite H404.
    exact (contains_intro "Error deleting silence: Alertmanager API error: " "404"
             (" " ++ Response.statusText r)).
Qed.

Lemma fetchFromAlertmanager_single_attempt_classified_witness :
  let w := example_world (answers 404 "Not Found" (Throw unexpected_end)) in
  fst (fetchFromAlertmanager "silence/abc" delete_options w)
  = Throw (ErrorObject "Error" "Alertmanager API error: 404 Not Found")
  /\ exists msg, fst (delete_silence "abc" w) = Ok (error_result msg)
                 /\ isError (error_result msg) = Some true
                 /\ contains msg "404".
Proof.
  cbn zeta.
  pose proof (fetchFromAlertmanager_single_attempt_classified "silence/abc" delete_options
                (example_world (answers 404 "Not Found" (Throw unexpected_end)))) as H.
  cbn zeta in H. destruct H as (_ & _ & Hbad & _ & H404). split.
  - apply (Hbad {| Response.status := 404; Response.statusText := "Not Found";
                   Response.json := Throw unexpected_end |}).
    + reflexivity.
    + cbn. lia.
  - apply (H404 "abc" {| Response.status := 404; Response.statusText := "Not Found";
                         Response.json := Throw unexpected_end |}); reflexivity.
Defined.

(** ** delete-silence *)

(** delete-silence, by the answer of the upstream: it sends one DELETE request
    to the singular path silence/{silenceId}, without a body.  On a 2xx
    response whose body parses, the result is the success envelope whose text
    holds the id, whatever value the body parsed to.  On a 2xx response whose
    body does not parse, the result is the failure envelope. *)
Theorem delete_silence_outcome (silenceId : string) (w : world) :
  let rq := api_request w ("silence/" ++ silenceId) delete_options in
  let out := delete_silence silenceId w in
  requests (snd out) = (requests w ++ [rq])%list
  /\ url rq = baseUrl w ++ "/api/v2/silence/" ++ silenceId
  /\ method (init rq) = Some "DELETE"
  /\ body (init rq) = None
  /\ (forall r v, upstream w rq = Resolves r ->
        200 <= Response.status r <= 299 ->
        Response.json r = Ok v ->
        fst out = Ok (text_result ("Successfully deleted silence with ID: " ++ silenceId)))
  /\ contains ("Successfully deleted silence with ID: " ++ silenceId) silenceId
  /\ (forall r e, upstream w rq = Resolves r ->
        200 <= Response.status r <= 299 ->
        Response.json r = Throw e ->
        fst out = Ok (error_result ("Error deleting silence: " ++ errorMessage e))).
Proof.
  cbn zeta. repeat split.
  - rewrite delete_silence_eq.
    pose proof (fetchFromAlertmanager_requests ("silence/" ++ silenceId) delete_options w) as H.
    destruct (fetchFromAlertmanager _ _ w) as [[v | e] w']; exact H.
  - intros r v Hup Hok Hj. apply ok_range in Hok.
    rewrite delete_silence_eq, (fetchFromAlertmanager_parsed _ _ _ _ Hup Hok), Hj.
    reflexivity.
  - apply contains_suffix.
  - intros r e Hup Hok Hj. apply ok_range in Hok.
    rewrite delete_silence_eq, (fetchFromAlertmanager_parsed _ _ _ _ Hup Hok), Hj.
    reflexivity.
Qed.

Lemma delete_silence_outcome_witness :
  fst (delete_silence "abc" (example_world (answers 200 "OK" (Ok (VObj [])))))
  = Ok (text_result "Successfully deleted silence with ID: abc").
Proof.
  pose proof (delete_silence_outcome "abc"
                (example_world (answers 200 "OK" (Ok (VObj []))))) as H.
  cbn zeta in H. destruct H as (_ & _ & _ & _ & Hdone & _).
  apply (Hdone {| Response.status := 200; Response.statusText := "OK";
                  Response.json := Ok (VObj []) |} (VObj [])).
  - reflexivity.
  - cbn. lia.
  - reflexivity.
Defined.

(** C9: the code at the failing input.  The upstream answers the DELETE with
    200 and an empty body, which [response.json()] rejects.  The handler has
    no use for the body and goes on to report success, yet the call returns
    the failure envelope, where the claim has the success envelope whatever
    the body holds; a 200 response that differs only in its body (null) gets
    the success envelope. *)
Lemma delete_silence_body_decides :
  Response.ok {| Response.status := 200; Response.statusText := "OK";
                 Response.json := Throw unexpected_end |} = true
  /\ fst (delete_silence "abc" (example_world (answers 200 "OK" (Throw unexpected_end))))
     = Ok (error_result "Error deleting silence: Unexpected end of JSON input")
  /\ fst (delete_silence "abc" (example_world (answers 200 "OK" (Ok VNull))))
     = Ok (text_result "Successfully deleted silence with ID: abc").
Proof. repeat split. Qed.

(** ** The operation boundary *)



Lemma try_catch_bind_Ok {A B} (m : M A) (k : A -> M B) (handler : exn -> M B)
    (w w1 : world) (a : A) :
  m w = (Ok a, w1) ->
  try_catch (bind m k) handler w = try_catch (k a) handler w1.
Proof. intro H. unfold try_catch, bind. rewrite H. reflexivity. Qed.





(** ** The get-alerts projection *)

Lemma assoc_strings (k : string) (m : list (string * string)) :
  assoc k (map (fun kv => (fst kv, VStr (snd kv))) m) = option_map VStr (assoc k m).
Proof.
  induction m as [ | [k' x] m IH]; cbn; [ reflexivity | ].
  destruct (String.eqb k k'); [ reflexivity | exact IH ].
Qed.

Lemma get_strings_json (k : string) (m : list (string * string)) :
  get (strings_json m) k = Ok (opt_str (assoc k m)).
Proof.
  unfold strings_json, get. rewrite assoc_strings.
  destruct (assoc k m); reflexivity.
Qed.

Lemma length_gt0_strings (rt : Runtime) (l : list string) :
  length_gt0 rt (VArr (map VStr l)) = Ok (0 <? length l)%nat.
Proof. destruct l; reflexivity. Qed.

(** The projection of a typed alert, field by field. *)
Lemma formatAlert_Alert_json (rt : Runtime) (a : Alert.t) :
  formatAlert rt (Alert_json a) =
  Ok (VObj
        [("fingerprint", VStr (Alert.fingerprint a));
         ("alertname", opt_str (assoc "alertname" (Alert.labels a)));
         ("severity",
          or_else (opt_str (assoc "severity" (Alert.labels a))) (VStr "unknown"));
         ("summary",
          or_else (opt_str (assoc "summary" (Alert.annotations a)))
            (VStr "No summary provided"));
         ("description",
          or_else (opt_str (assoc "description" (Alert.annotations a)))
            (VStr "No description provided"));
         ("startsAt", VStr (Alert.startsAt a));
         ("status",
          VObj [("state", VStr (AlertStatus.state (Alert.status a)));
                ("silenced",
                 VBool (0 <? length (AlertStatus.silencedBy (Alert.status a)))%nat);
                ("inhibited",
                 VBool (0 <? length (AlertStatus.inhibitedBy (Alert.status a)))%nat)]);
         ("labels", strings_json (Alert.labels a))]).
Proof.
  unfold formatAlert, Alert_json, AlertStatus_json.
  cbn [get assoc String.eqb Ascii.eqb Bool.eqb rbind].
  rewrite !get_strings_json. cbn [rbind].
  rewrite !length_gt0_strings. reflexivity.
Qed.

Lemma or_else_present (s dflt : string) :
  s <> "" -> or_else (opt_str (Some s)) (VStr dflt) = VStr s.
Proof. destruct s; [ congruence | reflexivity ]. Qed.

Lemma mapM_formatAlert (rt : Runtime) (alerts : list Alert.t) :
  exists outs,
    mapM (formatAlert rt) (map Alert_json alerts) = Ok outs
    /\ Forall2 (fun a out => formatAlert rt (Alert_json a) = Ok out) alerts outs.
Proof.
  induction alerts as [ | a alerts (outs & Hmap & Hall)].
  - exists []. split; [ reflexivity | constructor ].
  - destruct (formatAlert rt (Alert_json a)) as [out | e] eqn:E.
    + exists (out :: outs). split.
      * cbn [map mapM]. rewrite E. cbn [rbind]. rewrite Hmap. reflexivity.
      * constructor; assumption.
    + rewrite formatAlert_Alert_json in E. discriminate.
Qed.

(** get-alerts on a 2xx response whose body is a list of alerts. *)
Lemma get_alerts_formats (rt : Runtime) (filter : option string)
    (silenced inhibited active : option bool) (w : world) (r : Response.t)
    (alerts : list Alert.t) :
  upstream w (api_request w (alerts_path filter silenced inhibited active) no_options)
  = Resolves r ->
  Response.ok r = true ->
  Response.json r = Ok (VArr (map Alert_json alerts)) ->
  exists outs,
    fst (get_alerts rt filter silenced inhibited active w)
    = Ok (text_result (JSON_stringify rt (VArr outs)))
    /\ Forall2 (fun a out => formatAlert rt (Alert_json a) = Ok out) alerts outs.
Proof.
  intros Hup Hok Hj.
  destruct (mapM_formatAlert rt alerts) as (outs & Hmap & Hall).
  exists outs. split; [ | exact Hall ].
  unfold get_alerts, try_catch, bind.
  rewrite (fetchFromAlertmanager_parsed _ _ _ _ Hup Hok), Hj.
  unfold lift, array_map. rewrite Hmap. reflexivity.
Qed.

(** C2, as the code has it: when get-alerts receives a list of alerts, the
    payload is the list of their projections, in order, and in each
    projection: severity is the severity label when the alert has a non-empty
    one and "unknown" when it has none; summary and description are the
    annotations of those names when non-empty and the two placeholders when
    the alert has none; status.silenced is true exactly when silencedBy has
    length > 0, and status.inhibited exactly when inhibitedBy has. *)
Theorem get_alerts_projection (rt : Runtime) (filter : option string)
    (silenced inhibited active : option bool) (w : world) (r : Response.t)
    (alerts : list Alert.t) :
  upstream w (api_request w (alerts_path filter silenced inhibited active) no_options)
  = Resolves r ->
  200 <= Response.status r <= 299 ->
  Response.json r = Ok (VArr (map Alert_json alerts)) ->
  exists outs,
    fst (get_alerts rt filter silenced inhibited active w)
    = Ok (text_result (JSON_stringify rt (VArr outs)))
    /\ Forall2
         (fun a out =>
            (forall s, assoc "severity" (Alert.labels a) = Some s -> s <> "" ->
                       get out "severity" = Ok (VStr s))
            /\ (assoc "severity" (Alert.labels a) = None ->
                get out "severity" = Ok (VStr "unknown"))
            /\ (forall s, assoc "summary" (Alert.annotations a) = Some s -> s <> "" ->
                          get out "summary" = Ok (VStr s))
            /\ (assoc "summary" (Alert.annotations a) = None ->
                get out "summary" = Ok (VStr "No summary provided"))
            /\ (forall s, assoc "description" (Alert.annotations a) = Some s -> s <> "" ->
                          get out "description" = Ok (VStr s))
            /\ (assoc "description" (Alert.annotations a) = None ->
                get out "description" = Ok (VStr "No description provided"))
            /\ (exists b, get_path out ["status"; "silenced"] = Ok (VBool b)
                          /\ (b = true <->
                              0 < length (AlertStatus.silencedBy (Alert.status a))))
            /\ (exists b, get_path out ["status"; "inhibited"] = Ok (VBool b)
                          /\ (b = true <->
                              0 < length (AlertStatus.inhibitedBy (Alert.status a)))))
         alerts outs.
Proof.
  intros Hup Hok Hj. apply ok_range in Hok.
  destruct (get_alerts_formats rt _ _ _ _ _ _ _ Hup Hok Hj) as (outs & Hrun & Hall).
  exists outs. split; [ exact Hrun | ].
  eapply Forall2_impl; [ | exact Hall ].
  intros a out Hout. cbv beta in Hout.
  rewrite formatAlert_Alert_json in Hout. injection Hout as <-.
  repeat split.
  - intros s -> Hs. rewrite (or_else_present s _ Hs). reflexivity.
  - intros ->. reflexivity.
  - intros s -> Hs. rewrite (or_else_present s _ Hs). reflexivity.
  - intros ->. reflexivity.
  - intros s -> Hs. rewrite (or_else_present s _ Hs). reflexivity.
  - intros ->. reflexivity.
  - eexists. split; [ reflexivity | apply Nat.ltb_lt ].
  - eexists. split; [ reflexivity | apply Nat.ltb_lt ].
Qed.

Lemma get_alerts_projection_witness :
  exists outs,
    fst (get_alerts example_runtime None (Some true) None None
           (example_world (alerts_answer [firing_alert; blank_alert])))
    = Ok (text_result (JSON_stringify example_runtime (VArr outs)))
    /\ length outs = 2.
Proof.
  destruct (get_alerts_projection example_runtime None (Some true) None None
              (example_world (alerts_answer [firing_alert; blank_alert]))
              {| Response.status := 200; Response.statusText := "OK";
                 Response.json := Ok (VArr (map Alert_json [firing_alert; blank_alert])) |}
              [firing_alert; blank_alert])
    as (outs & Hrun & Hall).
  - reflexivity.
  - cbn. lia.
  - reflexivity.
  - exists outs. split; [ exact Hrun | ].
    symmetry. exact (Forall2_length Hall).
Defined.

(** C2 as stated fails where a label or annotation is present and empty: the
    projection does not carry the empty value but the default. *)
Lemma empty_label_not_carried :
  exists out,
    formatAlert example_runtime (Alert_json blank_alert) = Ok out
    /\ assoc "severity" (Alert.labels blank_alert) = Some ""
    /\ get out "severity" = Ok (VStr "unknown")
    /\ assoc "summary" (Alert.annotations blank_alert) = Some ""
    /\ get out "summary" = Ok (VStr "No summary provided")
    /\ assoc "description" (Alert.annotations blank_alert) = Some ""
    /\ get out "description" = Ok (VStr "No description provided")
    /\ get out "severity" <> Ok (VStr "").
Proof. eexists. repeat split. discriminate. Qed.

(** C10: an empty severity label, summary annotation or description
    annotation is replaced like a missing one. *)
Theorem empty_values_take_defaults (rt : Runtime) (a : Alert.t) :
  exists out,
    formatAlert rt (Alert_json a) = Ok out
    /\ (assoc "severity" (Alert.labels a) = Some "" ->
        get out "severity" = Ok (VStr "unknown"))
    /\ (assoc "summary" (Alert.annotations a) = Some "" ->
        get out "summary" = Ok (VStr "No summary provided"))
    /\ (assoc "description" (Alert.annotations a) = Some "" ->
        get out "description" = Ok (VStr "No description provided")).
Proof.
  eexists. split; [ apply formatAlert_Alert_json | ].
  repeat split; intros ->; reflexivity.
Qed.

Lemma empty_values_take_defaults_witness :
  exists out,
    formatAlert example_runtime (Alert_json blank_alert) = Ok out
    /\ get out "severity" = Ok (VStr "unknown")
    /\ get out "summary" = Ok (VStr "No summary provided")
    /\ get out "description" = Ok (VStr "No description provided").
Proof.
  destruct (empty_values_take_defaults example_runtime blank_alert)
    as (out & Hout & Hsev & Hsum & Hdesc).
  exists out. split; [ exact Hout | ].
  split; [ apply Hsev; reflexivity | ].
  split; [ apply Hsum; reflexivity | apply Hdesc; reflexivity ].
Defined.

Ltac unrbind H :=
  repeat
    match type of H with
    | rbind ?r _ = Ok _ =>
        let x := fresh "x" in
        let E := fresh "E" in
        destruct r as [x | ] eqn:E; cbn [rbind] in H; [ | discriminate H ]
    end.

(** C3: a projection produced by [formatAlert] is an object with exactly the
    fields fingerprint, alertname, severity, summary, description, startsAt,
    status and labels, its status an object with exactly state, silenced and
    inhibited; it has no endsAt, generatorURL or annotations field.  Two
    alerts that differ only in endsAt, in generatorURL and in annotations
    other than summary and description have the same projection. *)
Theorem formatAlert_is_lossy (rt : Runtime) :
  (forall alert out,
      formatAlert rt alert = Ok out ->
      exists fields status,
        out = VObj fields
        /\ keys fields = FormattedAlert_keys
        /\ assoc "status" fields = Some (VObj status)
        /\ keys status = FormattedAlert_status_keys
        /\ ~ In "endsAt" (keys fields)
        /\ ~ In "generatorURL" (keys fields)
        /\ ~ In "annotations" (keys fields))
  /\ (forall a b : Alert.t,
        Alert.fingerprint a = Alert.fingerprint b ->
        Alert.labels a = Alert.labels b ->
        Alert.startsAt a = Alert.startsAt b ->
        Alert.status a = Alert.status b ->
        assoc "summary" (Alert.annotations a) = assoc "summary" (Alert.annotations b) ->
        assoc "description" (Alert.annotations a)
        = assoc "description" (Alert.annotations b) ->
        formatAlert rt (Alert_json a) = formatAlert rt (Alert_json b)).
Proof.
  split.
  - intros alert out H. unfold formatAlert in H. unrbind H.
    injection H as <-. eexists _, _. split; [ reflexivity | ].
    repeat split; cbn; intuition discriminate.
  - intros a b Hfp Hl Hs Hst Hsum Hdesc.
    rewrite !formatAlert_Alert_json, Hfp, Hl, Hs, Hst, Hsum, Hdesc. reflexivity.
Qed.

Lemma formatAlert_is_lossy_witness :
  (exists fields,
      formatAlert example_runtime (Alert_json firing_alert) = Ok (VObj fields)
      /\ keys fields = FormattedAlert_keys)
  /\ formatAlert example_runtime (Alert_json firing_alert)
     = formatAlert example_runtime
         (Alert_json
            {| Alert.fingerprint := "a1b2c3";
               Alert.status := Alert.status firing_alert;
               Alert.labels := Alert.labels firing_alert;
               Alert.annotations := [("summary", "CPU above 90%")];
               Alert.startsAt := "2026-01-01T00:00:00.000Z";
               Alert.endsAt := "";
               Alert.generatorURL := "elsewhere" |}).
Proof.
  destruct (formatAlert_is_lossy example_runtime) as [Hshape Hsame]. split.
  - destruct (Hshape (Alert_json firing_alert) _ (formatAlert_Alert_json _ firing_alert))
      as (fields & status & Hout & Hkeys & _).
    exists fields. split; [ | exact Hkeys ].
    rewrite formatAlert_Alert_json. f_equal. exact Hout.
  - apply Hsame; reflexivity.
Defined.

(** ** get-alert-details *)

Lemma has_fingerprint_Alert_json (fingerprint : string) (a : Alert.t) :
  has_fingerprint fingerprint (Alert_json a)
  = Ok (String.eqb (Alert.fingerprint a) fingerprint).
Proof. reflexivity. Qed.

(** The scan stops at the first alert with the fingerprint. *)
Lemma findM_first (fingerprint : string) (before after : list Alert.t) (a : Alert.t) :
  (forall x, In x before -> Alert.fingerprint x <> fingerprint) ->
  Alert.fingerprint a = fingerprint ->
  findM (has_fingerprint fingerprint) (map Alert_json (before ++ a :: after))
  = Ok (Alert_json a).
Proof.
  intros Hbefore Ha. induction before as [ | x before IH].
  - cbn [app map findM]. rewrite has_fingerprint_Alert_json. cbn [rbind].
    apply String.eqb_eq in Ha. rewrite Ha. reflexivity.
  - cbn [app map findM]. rewrite has_fingerprint_Alert_json. cbn [rbind].
    assert (Hx : String.eqb (Alert.fingerprint x) fingerprint = false).
    { apply String.eqb_neq. apply Hbefore. left. reflexivity. }
    rewrite Hx. apply IH. intros y Hy. apply Hbefore. right. exact Hy.
Qed.

Lemma findM_none (fingerprint : string) (alerts : list Alert.t) :
  (forall x, In x alerts -> Alert.fingerprint x <> fingerprint) ->
  findM (has_fingerprint fingerprint) (map Alert_json alerts) = Ok VUndefined.
Proof.
  intro Hnone. induction alerts as [ | x alerts IH]; [ reflexivity | ].
  cbn [map findM]. rewrite has_fingerprint_Alert_json. cbn [rbind].
  assert (Hx : String.eqb (Alert.fingerprint x) fingerprint = false).
  { apply String.eqb_neq. apply Hnone. left. reflexivity. }
  rewrite Hx. apply IH. intros y Hy. apply Hnone. right. exact Hy.
Qed.

Lemma alert_details_Alert_json (a : Alert.t) :
  alert_details (Alert_json a)
  = Ok (VObj [("fingerprint", VStr (Alert.fingerprint a));
              ("alertname", opt_str (assoc "alertname" (Alert.labels a)));
              ("labels", strings_json (Alert.labels a));
              ("annotations", strings_json (Alert.annotations a));
              ("startsAt", VStr (Alert.startsAt a));
              ("endsAt", VStr (Alert.endsAt a));
              ("generatorURL", VStr (Alert.generatorURL a));
              ("status", AlertStatus_json (Alert.status a))]).
Proof.
  unfold alert_details, Alert_json.
  cbn [get assoc String.eqb Ascii.eqb Bool.eqb rbind].
  rewrite get_strings_json. reflexivity.
Qed.

(** A list with a matching alert splits at the first one. *)
Lemma first_with_fingerprint (fingerprint : string) (alerts : list Alert.t) :
  (exists a, In a alerts /\ Alert.fingerprint a = fingerprint) ->
  exists before a after,
    alerts = (before ++ a :: after)%list
    /\ (forall x, In x before -> Alert.fingerprint x <> fingerprint)
    /\ Alert.fingerprint a = fingerprint.
Proof.
  induction alerts as [ | x alerts IH]; intros (a & Hin & Ha).
  - destruct Hin.
  - destruct (String.eqb (Alert.fingerprint x) fingerprint) eqn:Hx.
    + apply String.eqb_eq in Hx. exists [], x, alerts. repeat split; [ | exact Hx ].
      intros y [].
    + apply String.eqb_neq in Hx. destruct Hin as [-> | Hin]; [ contradiction | ].
      destruct IH as (before & a' & after & -> & Hbefore & Ha'); [ now exists a | ].
      exists (x :: before), a', after. repeat split; [ | exact Ha' ].
      intros y [<- | Hy]; [ exact Hx | now apply Hbefore ].
Qed.

(** C4: on a fetched list of alerts, get-alert-details returns the full
    fields of the first alert whose fingerprint equals the input, so that the
    payload's fingerprint is the input; when no alert of the list has the
    fingerprint, it returns an error envelope whose message holds the
    fingerprint. *)
Theorem get_alert_details_lookup (rt : Runtime) (fingerprint : string) (w : world)
    (r : Response.t) (alerts : list Alert.t) :
  upstream w (api_request w "alerts" no_options) = Resolves r ->
  200 <= Response.status r <= 299 ->
  Response.json r = Ok (VArr (map Alert_json alerts)) ->
  ((exists a, In a alerts /\ Alert.fingerprint a = fingerprint) ->
   exists before a after,
     alerts = (before ++ a :: after)%list
     /\ (forall x, In x before -> Alert.fingerprint x <> fingerprint)
     /\ Alert.fingerprint a = fingerprint
     /\ fst (get_alert_details rt fingerprint w)
        = Ok (text_result
                (JSON_stringify rt
                   (VObj [("fingerprint", VStr fingerprint);
                          ("alertname", opt_str (assoc "alertname" (Alert.labels a)));
                          ("labels", strings_json (Alert.labels a));
                          ("annotations", strings_json (Alert.annotations a));
                          ("startsAt", VStr (Alert.startsAt a));
                          ("endsAt", VStr (Alert.endsAt a));
                          ("generatorURL", VStr (Alert.generatorURL a));
                          ("status", AlertStatus_json (Alert.status a))]))))
  /\ ((forall a, In a alerts -> Alert.fingerprint a <> fingerprint) ->
      fst (get_alert_details rt fingerprint w)
      = Ok (error_result ("Alert with fingerprint " ++ fingerprint ++ " not found"))
      /\ isError (error_result ("Alert with fingerprint " ++ fingerprint ++ " not found"))
         = Some true
      /\ contains ("Alert with fingerprint " ++ fingerprint ++ " not found") fingerprint).
Proof.
  intros Hup Hok Hj. apply ok_range in Hok.
  assert (Hrun : forall found,
             findM (has_fingerprint fingerprint) (map Alert_json alerts) = Ok found ->
             get_alert_details rt fingerprint w
             = try_catch
                 (if negb (truthy found)
                  then ret (error_result (not_found_message fingerprint))
                  else
                    do details <- lift (alert_details found);
                    ret (text_result (JSON_stringify rt details)))
                 (fun error =>
                    ret (error_result
                           ("Error fetching alert details: " ++ errorMessage error)))
                 (log_request (api_request w "alerts" no_options) w)).
  { intros found Hfound. unfold get_alert_details.
    erewrite try_catch_bind_Ok
      by (rewrite (fetchFromAlertmanager_parsed _ _ _ _ Hup Hok), Hj; reflexivity).
    erewrite try_catch_bind_Ok
      by (unfold lift, array_find; rewrite Hfound; reflexivity).
    reflexivity. }
  split.
  - intros Hsome.
    destruct (first_with_fingerprint _ _ Hsome) as (before & a & after & -> & Hbefore & Ha).
    exists before, a, after. repeat split; [ exact Hbefore | exact Ha | ].
    rewrite (Hrun _ (findM_first _ _ _ _ Hbefore Ha)).
    unfold try_catch, bind, lift. cbn [truthy Alert_json negb].
    rewrite alert_details_Alert_json, Ha. reflexivity.
  - intros Hnone. split; [ | split; [ reflexivity | ] ].
    + rewrite (Hrun _ (findM_none _ _ Hnone)). reflexivity.
    + apply contains_intro.
Qed.

Lemma get_alert_details_lookup_witness :
  fst (get_alert_details example_runtime "d4e5f6"
         (example_world (alerts_answer [firing_alert; blank_alert])))
  = Ok (text_result "{object}")
  /\ fst (get_alert_details example_runtime "0000"
            (example_world (alerts_answer [firing_alert; blank_alert])))
     = Ok (error_result "Alert with fingerprint 0000 not found").
Proof.
  split.
  - destruct (get_alert_details_lookup example_runtime "d4e5f6"
                (example_world (alerts_answer [firing_alert; blank_alert]))
                {| Response.status := 200; Response.statusText := "OK";
                   Response.json := Ok (VArr (map Alert_json [firing_alert; blank_alert])) |}
                [firing_alert; blank_alert]) as [Hfound _].
    + reflexivity.
    + cbn. lia.
    + reflexivity.
    + destruct Hfound as (before & a & after & _ & _ & _ & Hrun).
      * exists blank_alert. split; [ right; left; reflexivity | reflexivity ].
      * rewrite Hrun. reflexivity.
  - destruct (get_alert_details_lookup example_runtime "0000"
                (example_world (alerts_answer [firing_alert; blank_alert]))
                {| Response.status := 200; Response.statusText := "OK";
                   Response.json := Ok (VArr (map Alert_json [firing_alert; blank_alert])) |}
                [firing_alert; blank_alert]) as [_ Hnone].
    + reflexivity.
    + cbn. lia.
    + reflexivity.
    + apply Hnone. intros a [<- | [<- | []]]; discriminate.
Defined.

(** ** Query strings *)

Lemma get_alerts_requests (rt : Runtime) (filter : option string)
    (silenced inhibited active : option bool) (w : world) :
  requests (snd (get_alerts rt filter silenced inhibited active w))
  = (requests w
     ++ [api_request w (alerts_path filter silenced inhibited active) no_options])%list.
Proof.
  unfold get_alerts, try_catch. unfold bind at 1.
  pose proof (fetchFromAlertmanager_requests
                (alerts_path filter silenced inhibited active) no_options w) as H.
  destruct (fetchFromAlertmanager _ _ w) as [[v | e] w']; cbn in H; [ | exact H ].
  unfold bind, lift, ret. destruct (array_map _ _ v); exact H.
Qed.

Lemma get_alert_groups_requests (rt : Runtime) (active silenced inhibited : option bool)
    (w : world) :
  requests (snd (get_alert_groups rt active silenced inhibited w))
  = (requests w
     ++ [api_request w (groups_path active silenced inhibited) no_options])%list.
Proof.
  unfold get_alert_groups, try_catch, bind.
  pose proof (fetchFromAlertmanager_requests
                (groups_path active silenced inhibited) no_options w) as H.
  destruct (fetchFromAlertmanager _ _ w) as [[v | e] w']; exact H.
Qed.

Ltac flags :=
  cbn; repeat split; intros;
  repeat match goal with
         | H : _ \/ _ |- _ => destruct H
         | H : _ /\ _ |- _ => destruct H
         | H : False |- _ => destruct H
         | H : (_, _) = (_, _) |- _ => injection H as ? ?
         | H : Some _ = Some _ |- _ => injection H as ?
         end;
  subst; try congruence; try discriminate; auto 8.

(** The pieces of the get-alerts query string, in the order they are
    appended. *)
Lemma alerts_query_pieces (filter : option string) (silenced inhibited active : bool) :
  URLSearchParams_toString (alerts_params filter silenced inhibited active)
  = String.concat "&"
      ((match filter with
        | Some f => if nonempty f then [("filter=" ++ urlencode f)%string] else []
        | None => []
        end)
       ++ (if silenced then ["silenced=true"] else [])
       ++ (if inhibited then ["inhibited=true"] else [])
       ++ (if active then [] else ["active=false"]))%list.
Proof.
  destruct filter as [[ | c f] | ], silenced, inhibited, active; reflexivity.
Qed.

Lemma groups_query_pieces (active silenced inhibited : bool) :
  URLSearchParams_toString (groups_params active silenced inhibited)
  = String.concat "&"
      ((if active then [] else ["active=false"])
       ++ (if silenced then ["silenced=true"] else [])
       ++ (if inhibited then ["inhibited=true"] else []))%list.
Proof. destruct active, silenced, inhibited; reflexivity. Qed.

(** C5, as the code has it: the get-alerts query holds the filter parameter
    exactly when a filter is given and is not empty, with the filter as its
    value; silenced=true and inhibited=true exactly when the flag is true;
    active=false exactly when active is given as false; and nothing else.
    The query string is these pieces, the filter encoded, joined by an
    ampersand in that order, and the path is alerts, followed by a question
    mark and the query string when there is one.
    get-alerts({silenced: true}) requests alerts?silenced=true.  The handler
    requests the path so built.  get-alert-groups encodes its three flags by
    the same rules, in the order active, silenced, inhibited, and never sends
    a filter. *)
Theorem query_string_encoding (filter : option string)
    (silenced inhibited active : option bool) :
  let p := alerts_params filter (default false silenced) (default false inhibited)
             (default true active) in
  let g := groups_params (default true active) (default false silenced)
             (default false inhibited) in
  (forall v, In ("filter", v) p <-> filter = Some v /\ v <> "")
  /\ (forall v, In ("silenced", v) p <-> v = "true" /\ silenced = Some true)
  /\ (forall v, In ("inhibited", v) p <-> v = "true" /\ inhibited = Some true)
  /\ (forall v, In ("active", v) p <-> v = "false" /\ active = Some false)
  /\ (forall k, In k (keys p) ->
                k = "filter" \/ k = "silenced" \/ k = "inhibited" \/ k = "active")
  /\ URLSearchParams_toString p
     = String.concat "&"
         ((match filter with
           | Some f => if nonempty f then [("filter=" ++ urlencode f)%string] else []
           | None => []
           end)
          ++ (if default false silenced then ["silenced=true"] else [])
          ++ (if default false inhibited then ["inhibited=true"] else [])
          ++ (if default true active then [] else ["active=false"]))%list
  /\ alerts_path filter silenced inhibited active
     = "alerts" ++ (if nonempty (URLSearchParams_toString p)
                    then "?" ++ URLSearchParams_toString p else "")
  /\ alerts_params None true false true = [("silenced", "true")]
  /\ alerts_path None (Some true) None None = "alerts?silenced=true"
  /\ (forall rt w,
        requests (snd (get_alerts rt filter silenced inhibited active w))
        = (requests w
           ++ [api_request w (alerts_path filter silenced inhibited active)
                 no_options])%list)
  /\ (forall v, In ("silenced", v) g <-> v = "true" /\ silenced = Some true)
  /\ (forall v, In ("inhibited", v) g <-> v = "true" /\ inhibited = Some true)
  /\ (forall v, In ("active", v) g <-> v = "false" /\ active = Some false)
  /\ (forall k, In k (keys g) -> k = "silenced" \/ k = "inhibited" \/ k = "active")
  /\ URLSearchParams_toString g
     = String.concat "&"
         ((if default true active then [] else ["active=false"])
          ++ (if default false silenced then ["silenced=true"] else [])
          ++ (if default false inhibited then ["inhibited=true"] else []))%list
  /\ groups_path active silenced inhibited
     = "alerts/groups" ++ (if nonempty (URLSearchParams_toString g)
                           then "?" ++ URLSearchParams_toString g else "")
  /\ (forall rt w,
        requests (snd (get_alert_groups rt active silenced inhibited w))
        = (requests w
           ++ [api_request w (groups_path active silenced inhibited) no_options])%list).
Proof.
  cbn zeta.
  split; [ | split; [ | split; [ | split; [ | split; [ | split; [ | split; [ | split;
    [ | split; [ | split; [ | split; [ | split; [ | split; [ | split;
    [ | split; [ | split ] ] ] ] ] ] ] ] ] ] ] ] ] ] ].
  - destruct filter as [[ | c f] | ], silenced as [[ | ] | ], inhibited as [[ | ] | ],
      active as [[ | ] | ]; flags.
  - destruct filter as [[ | c f] | ], silenced as [[ | ] | ], inhibited as [[ | ] | ],
      active as [[ | ] | ]; flags.
  - destruct filter as [[ | c f] | ], silenced as [[ | ] | ], inhibited as [[ | ] | ],
      active as [[ | ] | ]; flags.
  - destruct filter as [[ | c f] | ], silenced as [[ | ] | ], inhibited as [[ | ] | ],
      active as [[ | ] | ]; flags.
  - destruct filter as [[ | c f] | ], silenced as [[ | ] | ], inhibited as [[ | ] | ],
      active as [[ | ] | ]; flags.
  - apply alerts_query_pieces.
  - reflexivity.
  - reflexivity.
  - reflexivity.
  - intros rt w. apply get_alerts_requests.
  - destruct silenced as [[ | ] | ], inhibited as [[ | ] | ], active as [[ | ] | ]; flags.
  - destruct silenced as [[ | ] | ], inhibited as [[ | ] | ], active as [[ | ] | ]; flags.
  - destruct silenced as [[ | ] | ], inhibited as [[ | ] | ], active as [[ | ] | ]; flags.
  - destruct silenced as [[ | ] | ], inhibited as [[ | ] | ], active as [[ | ] | ]; flags.
  - apply groups_query_pieces.
  - reflexivity.
  - intros rt w. apply get_alert_groups_requests.
Qed.

Lemma query_string_encoding_witness :
  In ("active", "false")
    (alerts_params (Some "job=node") (default false (Some true)) (default false None)
       (default true (Some false)))
  /\ In ("filter", "job=node")
       (alerts_params (Some "job=node") (default false (Some true)) (default false None)
          (default true (Some false)))
  /\ alerts_path (Some "job=node") (Some true) None (Some false)
     = "alerts?filter=job%3Dnode&silenced=true&active=false".
Proof.
  pose proof (query_string_encoding (Some "job=node") (Some true) None (Some false)) as H.
  cbn zeta in H. destruct H as (Hfilter & _ & _ & Hactive & _ & Hquery & Hpath & _).
  split; [ apply Hactive; split; reflexivity | ].
  split; [ apply Hfilter; split; [ reflexivity | discriminate ] | ].
  rewrite Hpath, Hquery. reflexivity.
Defined.

(** C5 as stated fails for a filter that is given and empty: it is present
    among the arguments, and the query does not include it. *)
Lemma empty_filter_not_sent :
  alerts_params (Some "") (default false (Some true)) (default false None)
    (default true None)
  = [("silenced", "true")]
  /\ alerts_path (Some "") (Some true) None None = "alerts?silenced=true"
  /\ alerts_path (Some "") None None None = "alerts"
  /\ forall rt,
       requests (snd (get_alerts rt (Some "") None None None
                        (example_world (alerts_answer []))))
       = [{| url := "http://localhost:9093/api/v2/alerts"; init := no_options |}].
Proof.
  split; [ reflexivity | ]. split; [ reflexivity | ]. split; [ reflexivity | ].
  intro rt. rewrite get_alerts_requests. reflexivity.
Qed.

(** The filter is percent-encoded by the serializer; the flags are literal. *)
Example alerts_path_all_parameters :
  alerts_path (Some "alertname=~'.*CPU.*'") (Some true) (Some true) (Some false)
  = "alerts?filter=alertname%3D%7E%27.*CPU.*%27&silenced=true&inhibited=true&active=false".
Proof. reflexivity. Qed.

Example alerts_path_defaults :
  alerts_path None None None None = "alerts"
  /\ alerts_path (Some "") (Some false) (Some false) (Some true) = "alerts"
  /\ groups_path (Some false) (Some true) None = "alerts/groups?active=false&silenced=true".
Proof. repeat split. Qed.

(** ** create-silence *)

Lemma fetchFromAlertmanager_clock (path : string) (options : RequestInit) (w : world) :
  clock_reads (snd (fetchFromAlertmanager path options w)) = clock_reads w.
Proof.
  rewrite fetchFromAlertmanager_eq; cbn.
  destruct (upstream w _) as [r | e]; [ | reflexivity ].
  destruct (Response.ok r); [ | reflexivity ].
  destruct (Response.json r); reflexivity.
Qed.

(** The world after create-silence is the world after its one call to the
    client, made after one reading of the clock. *)
Lemma create_silence_world (rt : Runtime) (matchers : list Matcher.t)
    (startsAt : option string) (endsAt createdBy comment : string) (w : world) :
  snd (create_silence rt matchers startsAt endsAt createdBy comment w)
  = snd (fetchFromAlertmanager "silences"
           (post_json rt (silenceData matchers startsAt endsAt createdBy comment
                            (clock w (clock_reads w))))
           (tick w)).
Proof.
  unfold create_silence, try_catch. unfold bind at 1. unfold Date_now_toISOString.
  unfold bind at 1.
  destruct (fetchFromAlertmanager _ _ (tick w)) as [[v | e] w']; [ | reflexivity ].
  unfold bind, lift, ret. cbn [snd].
  destruct (rbind (get v "silenceID") _); reflexivity.
Qed.

Lemma create_silence_requests (rt : Runtime) (matchers : list Matcher.t)
    (startsAt : option string) (endsAt createdBy comment : string) (w : world) :
  requests (snd (create_silence rt matchers startsAt endsAt createdBy comment w))
  = (requests w
     ++ [api_request w "silences"
           (post_json rt (silenceData matchers startsAt endsAt createdBy comment
                            (clock w (clock_reads w))))])%list.
Proof. rewrite create_silence_world, fetchFromAlertmanager_requests. reflexivity. Qed.

Lemma body_matcher_eq (m : Matcher.t) :
  body_matcher m
  = VObj [("name", VStr (Matcher.name m));
          ("value", VStr (Matcher.value m));
          ("isRegex", VBool (default false (Matcher.isRegex m)))].
Proof. unfold body_matcher. destruct (Matcher.isRegex m) as [[ | ] | ]; reflexivity. Qed.

(** C6, as the code has it: create-silence reads the clock once and sends one
    POST to silences whose body is the serialized silence data.  In that data
    every matcher keeps its name and value, and its isRegex is the one given,
    or false when absent; startsAt is the clock reading when startsAt is
    omitted, and the given startsAt when it is given and not empty; endsAt,
    createdBy and comment are the ones given. *)
Theorem create_silence_body (rt : Runtime) (matchers : list Matcher.t)
    (startsAt : option string) (endsAt createdBy comment : string) (w : world) :
  let now := clock w (clock_reads w) in
  let data := silenceData matchers startsAt endsAt createdBy comment now in
  let out := create_silence rt matchers startsAt endsAt createdBy comment w in
  requests (snd out) = (requests w ++ [api_request w "silences" (post_json rt data)])%list
  /\ method (post_json rt data) = Some "POST"
  /\ body (post_json rt data) = Some (JSON_stringify rt data)
  /\ clock_reads (snd out) = S (clock_reads w)
  /\ get data "matchers"
     = Ok (VArr (map (fun m =>
                        VObj [("name", VStr (Matcher.name m));
                              ("value", VStr (Matcher.value m));
                              ("isRegex", VBool (match Matcher.isRegex m with
                                                 | Some b => b
                                                 | None => false
                                                 end))])
                   matchers))
  /\ (startsAt = None -> get data "startsAt" = Ok (VStr now))
  /\ (forall s, startsAt = Some s -> s <> "" -> get data "startsAt" = Ok (VStr s))
  /\ get data "endsAt" = Ok (VStr endsAt)
  /\ get data "createdBy" = Ok (VStr createdBy)
  /\ get data "comment" = Ok (VStr comment).
Proof.
  cbn zeta. repeat split.
  - apply create_silence_requests.
  - rewrite create_silence_world, fetchFromAlertmanager_clock. reflexivity.
  - cbn. do 2 f_equal. apply map_ext. intro m. apply body_matcher_eq.
  - intros ->. reflexivity.
  - intros s -> Hs. unfold silenceData. rewrite (or_else_present s _ Hs). reflexivity.
Qed.

Lemma create_silence_body_witness :
  let data :=
    silenceData [{| Matcher.name := "alertname"; Matcher.value := "X";
                    Matcher.isRegex := None |}]
      (Some "2029-12-31T00:00:00Z") "2030-01-01T00:00:00Z" "u" "c"
      "2026-01-01T00:00:00.000Z" in
  get data "matchers"
  = Ok (VArr [VObj [("name", VStr "alertname"); ("value", VStr "X");
                    ("isRegex", VBool false)]])
  /\ get data "startsAt" = Ok (VStr "2029-12-31T00:00:00Z")
  /\ get (silenceData [] None "2030-01-01T00:00:00Z" "u" "c" "2026-01-01T00:00:00.000Z")
        "startsAt"
     = Ok (VStr "2026-01-01T00:00:00.000Z").
Proof.
  cbn zeta.
  pose proof (create_silence_body example_runtime
                [{| Matcher.name := "alertname"; Matcher.value := "X";
                    Matcher.isRegex := None |}]
                (Some "2029-12-31T00:00:00Z") "2030-01-01T00:00:00Z" "u" "c"
                (example_world (answers 200 "OK" (Ok (VObj [("silenceID", VStr "id-1")])))))
    as H.
  pose proof (create_silence_body example_runtime [] None "2030-01-01T00:00:00Z" "u" "c"
                (example_world (answers 200 "OK" (Ok (VObj [("silenceID", VStr "id-1")])))))
    as H0.
  cbn zeta in H, H0.
  destruct H as (_ & _ & _ & _ & Hm & _ & Hgiven & _).
  destruct H0 as (_ & _ & _ & _ & _ & Homitted & _).
  split; [ exact Hm | ].
  split; [ apply Hgiven; [ reflexivity | discriminate ] | ].
  apply Homitted. reflexivity.
Defined.

(** C6 as stated fails for a startsAt that is given and empty.  Whatever the
    runtime, the data serialized into the request body holds the clock
    reading as startsAt, not the empty string that was supplied; printed, the
    body sent is the text below, and it is not the text that passing the
    empty string through would give. *)
Lemma empty_startsAt_not_passed_through :
  (forall rt,
      requests (snd (create_silence rt [] (Some "") "2030-01-01T00:00:00Z" "u" "c"
                       (example_world
                          (answers 200 "OK" (Ok (VObj [("silenceID", VStr "id-1")]))))))
      = [{| url := "http://localhost:9093/api/v2/silences";
            init := post_json rt
                      (VObj [("matchers", VArr []);
                             ("startsAt", VStr "2026-01-01T00:00:00.000Z");
                             ("endsAt", VStr "2030-01-01T00:00:00Z");
                             ("createdBy", VStr "u");
                             ("comment", VStr "c")]) |}])
  /\ map (fun rq => body (init rq))
        (requests (snd (create_silence printing_runtime [] (Some "")
                          "2030-01-01T00:00:00Z" "u" "c"
                          (example_world
                             (answers 200 "OK" (Ok (VObj [("silenceID", VStr "id-1")])))))))
     = [Some (text_of_lines
                ["{";
                 "  " ++ dq ++ "matchers" ++ dq ++ ": [],";
                 "  " ++ dq ++ "startsAt" ++ dq ++ ": " ++ dq ++ "2026-01-01T00:00:00.000Z"
                   ++ dq ++ ",";
                 "  " ++ dq ++ "endsAt" ++ dq ++ ": " ++ dq ++ "2030-01-01T00:00:00Z"
                   ++ dq ++ ",";
                 "  " ++ dq ++ "createdBy" ++ dq ++ ": " ++ dq ++ "u" ++ dq ++ ",";
                 "  " ++ dq ++ "comment" ++ dq ++ ": " ++ dq ++ "c" ++ dq;
                 "}"])]
  /\ JSON_stringify printing_runtime
       (VObj [("matchers", VArr []);
              ("startsAt", VStr "2026-01-01T00:00:00.000Z");
              ("endsAt", VStr "2030-01-01T00:00:00Z");
              ("createdBy", VStr "u");
              ("comment", VStr "c")])
     <> JSON_stringify printing_runtime
          (VObj [("matchers", VArr []);
                 ("startsAt", VStr "");
                 ("endsAt", VStr "2030-01-01T00:00:00Z");
                 ("createdBy", VStr "u");
                 ("comment", VStr "c")]).
Proof.
  split; [ | split ].
  - intro rt. rewrite create_silence_requests. reflexivity.
  - rewrite create_silence_requests. reflexivity.
  - discriminate.
Qed.

(** ** The schema of create-silence *)

Lemma accepts_matcher_arg (m : Matcher.t) : accepts matcher_shape (matcher_arg m) = true.
Proof. unfold matcher_arg. destruct (Matcher.isRegex m) as [b | ]; reflexivity. Qed.

Lemma accepts_matcher_args (matchers : list Matcher.t) :
  forallb (accepts matcher_shape) (map matcher_arg matchers) = true.
Proof.
  induction matchers as [ | m matchers IH]; [ reflexivity | ].
  cbn [map forallb]. now rewrite accepts_matcher_arg, IH.
Qed.

(** C7, as the code has it: the schema of create-silence accepts every
    arguments object with a sequence of matchers, an optional startsAt and the
    three required strings; the sequence may be empty.  What it requires of
    matchers is to be an array of matcher objects.  Called with no matcher,
    the handler posts silence data whose matchers are the empty array. *)
Theorem create_silence_shape_accepts :
  (forall matchers startsAt endsAt createdBy comment,
      accepts create_silence_shape
        (create_silence_args matchers startsAt endsAt createdBy comment) = true)
  /\ (forall v,
        accepts create_silence_shape v = true ->
        exists elems,
          get v "matchers" = Ok (VArr elems)
          /\ forallb (accepts matcher_shape) elems = true)
  /\ (forall rt startsAt endsAt createdBy comment w,
        exists data,
          requests (snd (create_silence rt [] startsAt endsAt createdBy comment w))
          = (requests w ++ [api_request w "silences" (post_json rt data)])%list
          /\ get data "matchers" = Ok (VArr [])).
Proof.
  split; [ | split ].
  - intros matchers startsAt endsAt createdBy comment.
    unfold create_silence_args, create_silence_shape.
    destruct startsAt; cbn; now rewrite accepts_matcher_args.
  - intros v H. destruct v as [ | | | | | | fields]; try discriminate H.
    cbn in H. cbn [get].
    destruct (assoc "matchers" fields) as [[ | | | | | elems | ] | ]; try discriminate H.
    exists elems. split; [ reflexivity | ].
    apply andb_true_iff in H. tauto.
  - intros rt startsAt endsAt createdBy comment w. eexists. split.
    + apply create_silence_requests.
    + reflexivity.
Qed.

Lemma create_silence_shape_accepts_witness :
  exists elems,
    get (create_silence_args
           [{| Matcher.name := "alertname"; Matcher.value := "X";
               Matcher.isRegex := Some true |}]
           None "2030-01-01T00:00:00Z" "u" "c") "matchers" = Ok (VArr elems)
    /\ forallb (accepts matcher_shape) elems = true.
Proof.
  destruct create_silence_shape_accepts as (Hall & Harray & _).
  apply Harray. apply Hall.
Defined.

(** C7 as stated fails: the schema accepts a call without any matcher. *)
Lemma empty_matchers_accepted :
  create_silence_args [] None "2030-01-01T00:00:00Z" "u" "c"
  = VObj [("matchers", VArr []);
          ("endsAt", VStr "2030-01-01T00:00:00Z");
          ("createdBy", VStr "u");
          ("comment", VStr "c")]
  /\ accepts create_silence_shape
       (VObj [("matchers", VArr []);
              ("endsAt", VStr "2030-01-01T00:00:00Z");
              ("createdBy", VStr "u");
              ("comment", VStr "c")]) = true.
Proof. split; reflexivity. Qed.

(** ** Runs of the handlers *)

(** A request that times out: the failure is logged and reported. *)
Example get_alerts_timeout :
  get_alerts example_runtime None None None None (example_world (fun _ => Rejects abort_error))
  = (Ok (error_result "Error fetching alerts: This operation was aborted"),
     {| ALERTMANAGER_URL := None;
        upstream := fun _ => Rejects abort_error;
        clock := fun _ => "2026-01-01T00:00:00.000Z";
        clock_reads := 0;
        requests := [{| url := "http://localhost:9093/api/v2/alerts"; init := no_options |}];
        stderr := ["Error fetching from Alertmanager: This operation was aborted"] |}).
Proof. reflexivity. Qed.

(** A body that is JSON but no array makes the projection throw; the handler
    reports it. *)
Example get_alerts_not_an_array :
  fst (get_alerts example_runtime None None None None
         (example_world (answers 200 "OK" (Ok (VObj [("status", VStr "success")])))))
  = Ok (error_result "Error fetching alerts: alerts.map is not a function").
Proof. reflexivity. Qed.

Example get_alerts_null_element :
  fst (get_alerts example_runtime None None None None
         (example_world (answers 200 "OK" (Ok (VArr [VNull])))))
  = Ok (error_result
          "Error fetching alerts: Cannot read properties of null (reading 'fingerprint')").
Proof. reflexivity. Qed.

Example create_silence_reports_id :
  fst (create_silence example_runtime
         [{| Matcher.name := "alertname"; Matcher.value := "X"; Matcher.isRegex := None |}]
         None "2030-01-01T00:00:00Z" "u" "c"
         (example_world (answers 200 "OK" (Ok (VObj [("silenceID", VStr "id-1")])))))
  = Ok (text_result "Successfully created silence with ID: id-1").
Proof. reflexivity. Qed.

Example get_silences_server_error :
  fst (get_silences example_runtime (Some "createdBy=admin")
         (example_world (answers 500 "Internal Server Error" (Ok VNull))))
  = Ok (error_result
          "Error fetching silences: Alertmanager API error: 500 Internal Server Error").
Proof. reflexivity. Qed.

Example delete_silence_url_override :
  requests (snd (delete_silence "abc"
                   {| ALERTMANAGER_URL := Some "http://am:9093";
                      upstream := answers 200 "OK" (Ok (VObj []));
                      clock := fun _ => "2026-01-01T00:00:00.000Z";
                      clock_reads := 0;
                      requests := [];
                      stderr := [] |}))
  = [{| url := "http://am:9093/api/v2/silence/abc"; init := delete_options |}].
Proof. reflexivity. Qed.

(** * Further properties *)

(** ** Every tool is one client call and a reshaping of its outcome *)

Lemma call_tool_factors (rt : Runtime) (i : invocation) (w : world) :
  call_tool rt i w
  = (Ok (finish rt i
           (fst (fetchFromAlertmanager (tool_path i) (tool_options rt i w)
                   (before_call i w)))),
     snd (fetchFromAlertmanager (tool_path i) (tool_options rt i w) (before_call i w))).
Proof.
  destruct i; cbn [call_tool tool_path tool_options before_call].
  - unfold get_alerts, try_catch, bind, finish.
    destruct (fetchFromAlertmanager _ _ w) as [[v | e] w']; [ | reflexivity ].
    cbn [fst snd rbind reshape]. unfold lift.
    destruct (array_map _ _ v); reflexivity.
  - unfold get_alert_details, try_catch, bind, finish.
    destruct (fetchFromAlertmanager _ _ w) as [[v | e] w']; [ | reflexivity ].
    cbn [fst snd rbind reshape]. unfold lift.
    destruct (array_find _ _ v) as [alert | e]; [ | reflexivity ]. cbn [rbind].
    destruct (negb (truthy alert)); [ reflexivity | ].
    destruct (alert_details alert); reflexivity.
  - unfold create_silence, try_catch. unfold bind at 1. unfold Date_now_toISOString.
    unfold bind, finish.
    destruct (fetchFromAlertmanager _ _ (tick w)) as [[v | e] w']; [ | reflexivity ].
    cbn [fst snd rbind reshape]. unfold lift.
    destruct (get v "silenceID") as [sid | e]; [ | reflexivity ]. cbn [rbind].
    destruct (template rt sid); reflexivity.
  - unfold get_silences, try_catch, bind, finish, silences_path.
    destruct (fetchFromAlertmanager _ _ w) as [[v | e] w']; [ | reflexivity ].
    cbn [fst snd rbind reshape]. unfold lift.
    destruct (array_map _ _ v); reflexivity.
  - unfold delete_silence, try_catch, bind, finish.
    destruct (fetchFromAlertmanager _ _ w) as [[v | e] w']; reflexivity.
  - unfold get_alert_groups, try_catch, bind, finish.
    destruct (fetchFromAlertmanager _ _ w) as [[v | e] w']; reflexivity.
Qed.

Lemma api_request_before_call (i : invocation) (w : world) (path : string)
    (options : RequestInit) :
  api_request (before_call i w) path options = api_request w path options.
Proof. destruct i; reflexivity. Qed.

Lemma upstream_before_call (i : invocation) (w : world) :
  upstream (before_call i w) = upstream w.
Proof. destruct i; reflexivity. Qed.

(** The outcome of the client call, by [client_failure]. *)
Lemma fetchFromAlertmanager_fst (path : string) (options : RequestInit) (w : world) :
  match client_failure w (api_request w path options) with
  | Some e => fst (fetchFromAlertmanager path options w) = Throw e
  | None => exists v, fst (fetchFromAlertmanager path options w) = Ok v
  end.
Proof.
  rewrite fetchFromAlertmanager_eq. unfold client_failure; cbn.
  destruct (upstream w _) as [r | e]; [ | reflexivity ].
  destruct (Response.ok r); [ | reflexivity ].
  destruct (Response.json r) as [v | e]; [ exists v | ]; reflexivity.
Qed.

Lemma fetchFromAlertmanager_stderr (path : string) (options : RequestInit) (w : world) :
  stderr (snd (fetchFromAlertmanager path options w))
  = (stderr w
     ++ match client_failure w (api_request w path options) with
        | Some e => [("Error fetching from Alertmanager: " ++ errorMessage e)%string]
        | None => []
        end)%list.
Proof.
  rewrite fetchFromAlertmanager_eq. unfold client_failure; cbn.
  destruct (upstream w _) as [r | e]; [ | reflexivity ].
  destruct (Response.ok r); [ | reflexivity ].
  destruct (Response.json r); cbn; [ now rewrite app_nil_r | reflexivity ].
Qed.

Lemma call_tool_fst (rt : Runtime) (i : invocation) (w : world) :
  fst (call_tool rt i w)
  = Ok (finish rt i
          (fst (fetchFromAlertmanager (tool_path i) (tool_options rt i w)
                  (before_call i w)))).
Proof. rewrite call_tool_factors. reflexivity. Qed.

Lemma call_tool_snd (rt : Runtime) (i : invocation) (w : world) :
  snd (call_tool rt i w)
  = snd (fetchFromAlertmanager (tool_path i) (tool_options rt i w) (before_call i w)).
Proof. rewrite call_tool_factors. reflexivity. Qed.

Lemma client_failure_before_call (i : invocation) (w : world) (rq : Request) :
  client_failure (before_call i w) rq = client_failure w rq.
Proof. destruct i; reflexivity. Qed.

(** The envelope when the client call throws. *)
Lemma call_tool_client_failure (rt : Runtime) (i : invocation) (w : world) (e : exn) :
  client_failure w (api_request w (tool_path i) (tool_options rt i w)) = Some e ->
  fst (call_tool rt i w) = Ok (error_result (error_prefix i ++ errorMessage e)).
Proof.
  intro H. rewrite call_tool_fst.
  pose proof (fetchFromAlertmanager_fst (tool_path i) (tool_options rt i w)
                (before_call i w)) as Hf.
  rewrite api_request_before_call, client_failure_before_call, H in Hf.
  rewrite Hf. reflexivity.
Qed.

Lemma call_tool_requests (rt : Runtime) (i : invocation) (w : world) :
  requests (snd (call_tool rt i w))
  = (requests w ++ [api_request w (tool_path i) (tool_options rt i w)])%list.
Proof.
  rewrite call_tool_snd, fetchFromAlertmanager_requests, api_request_before_call.
  destruct i; reflexivity.
Qed.

(** X1: every tool call puts exactly one request on the wire, after the ones
    already sent: to the base URL, under /api/v2/, at the tool's path; a GET
    (no method given) without body for the four reading tools, a POST with
    the JSON content type and the serialized silence data for create-silence,
    a DELETE without body for delete-silence. *)
Theorem call_tool_issues_one_request (rt : Runtime) (i : invocation) (w : world) :
  requests (snd (call_tool rt i w))
  = (requests w
     ++ [{| url := baseUrl w ++ "/api/v2/" ++ tool_path i;
            init := tool_options rt i w |}])%list
  /\ match i with
     | CreateSilence matchers startsAt endsAt createdBy comment =>
         tool_path i = "silences"
         /\ method (tool_options rt i w) = Some "POST"
         /\ headers (tool_options rt i w) = [("Content-Type", "application/json")]
         /\ body (tool_options rt i w)
            = Some (JSON_stringify rt
                      (silenceData matchers startsAt endsAt createdBy comment
                         (clock w (clock_reads w))))
     | DeleteSilence silenceId =>
         tool_path i = "silence/" ++ silenceId
         /\ method (tool_options rt i w) = Some "DELETE"
         /\ headers (tool_options rt i w) = []
         /\ body (tool_options rt i w) = None
     | _ =>
         method (tool_options rt i w) = None
         /\ headers (tool_options rt i w) = []
         /\ body (tool_options rt i w) = None
     end.
Proof.
  split.
  - apply call_tool_requests.
  - destruct i; repeat split.
Qed.

(** X2: whatever the tool, a failure of its client call comes back as the
    failure envelope whose text is the tool's own prefix followed by the
    error's message: a rejected [fetch] (network failure, timeout), a
    non-2xx status, a body that does not parse. *)
Theorem tool_failure_envelopes (rt : Runtime) (i : invocation) (w : world) :
  let rq := api_request w (tool_path i) (tool_options rt i w) in
  (forall e, upstream w rq = Rejects e ->
     fst (call_tool rt i w) = Ok (error_result (error_prefix i ++ errorMessage e)))
  /\ (forall r, upstream w rq = Resolves r ->
        ~ 200 <= Response.status r <= 299 ->
        fst (call_tool rt i w)
        = Ok (error_result
                (error_prefix i ++ "Alertmanager API error: "
                 ++ show_nat (Response.status r) ++ " " ++ Response.statusText r)))
  /\ (forall r e, upstream w rq = Resolves r ->
        200 <= Response.status r <= 299 ->
        Response.json r = Throw e ->
        fst (call_tool rt i w) = Ok (error_result (error_prefix i ++ errorMessage e))).
Proof.
  cbn zeta. repeat split.
  - intros e Hup. apply call_tool_client_failure. unfold client_failure.
    rewrite Hup. reflexivity.
  - intros r Hup Hbad.
    rewrite (call_tool_client_failure rt i w (status_error r)); [ reflexivity | ].
    unfold client_failure. rewrite Hup.
    destruct (Response.ok r) eqn:Hok; [ | reflexivity ].
    apply ok_range in Hok. contradiction.
  - intros r e Hup Hok Hj. apply call_tool_client_failure. unfold client_failure.
    apply ok_range in Hok. rewrite Hup, Hok, Hj. reflexivity.
Qed.

Lemma tool_failure_envelopes_witness :
  fst (call_tool example_runtime (GetSilences None)
         (example_world (fun _ => Rejects abort_error)))
  = Ok (error_result "Error fetching silences: This operation was aborted")
  /\ fst (call_tool example_runtime (GetAlertGroups None None None)
            (example_world (answers 503 "Service Unavailable" (Ok VNull))))
     = Ok (error_result
             "Error fetching alert groups: Alertmanager API error: 503 Service Unavailable")
  /\ fst (call_tool example_runtime (GetAlertDetails "a1b2c3")
            (example_world (answers 200 "OK" (Throw unexpected_end))))
     = Ok (error_result "Error fetching alert details: Unexpected end of JSON input").
Proof.
  split; [ | split ].
  - apply (proj1 (tool_failure_envelopes example_runtime (GetSilences None)
                    (example_world (fun _ => Rejects abort_error))) abort_error).
    reflexivity.
  - apply (proj1 (proj2 (tool_failure_envelopes example_runtime
                           (GetAlertGroups None None None)
                           (example_world (answers 503 "Service Unavailable" (Ok VNull)))))
             {| Response.status := 503; Response.statusText := "Service Unavailable";
                Response.json := Ok VNull |}).
    + reflexivity.
    + cbn. lia.
  - apply (proj2 (proj2 (tool_failure_envelopes example_runtime (GetAlertDetails "a1b2c3")
                           (example_world (answers 200 "OK" (Throw unexpected_end)))))
             {| Response.status := 200; Response.statusText := "OK";
                Response.json := Throw unexpected_end |} unexpected_end).
    + reflexivity.
    + cbn. lia.
    + reflexivity.
Defined.

(** X3: a tool call writes to standard error only through the client: one
    line when the client call fails, nothing otherwise.  A failure of the
    reshaping and the not-found answer of get-alert-details are not logged,
    and a call that returns a success envelope has logged nothing. *)
Theorem call_tool_stderr (rt : Runtime) (i : invocation) (w : world) :
  stderr (snd (call_tool rt i w))
  = (stderr w
     ++ match client_failure w (api_request w (tool_path i) (tool_options rt i w)) with
        | Some e => [("Error fetching from Alertmanager: " ++ errorMessage e)%string]
        | None => []
        end)%list
  /\ (forall t, fst (call_tool rt i w) = Ok (text_result t) ->
                stderr (snd (call_tool rt i w)) = stderr w).
Proof.
  assert (H : stderr (snd (call_tool rt i w))
              = (stderr w
                 ++ match client_failure w
                            (api_request w (tool_path i) (tool_options rt i w)) with
                    | Some e =>
                        [("Error fetching from Alertmanager: " ++ errorMessage e)%string]
                    | None => []
                    end)%list).
  { rewrite call_tool_snd, fetchFromAlertmanager_stderr.
    rewrite api_request_before_call, client_failure_before_call.
    destruct i; reflexivity. }
  split; [ exact H | ].
  intros t Ht. rewrite H.
  destruct (client_failure w _) as [e | ] eqn:Hc; [ | apply app_nil_r ].
  rewrite (call_tool_client_failure rt i w e Hc) in Ht. discriminate Ht.
Qed.

Lemma call_tool_stderr_witness :
  stderr (snd (call_tool example_runtime (GetAlertDetails "0000")
                 (example_world (alerts_answer [firing_alert]))))
  = [].
Proof.
  pose proof (call_tool_stderr example_runtime (GetAlertDetails "0000")
                (example_world (alerts_answer [firing_alert]))) as [H _].
  rewrite H. reflexivity.
Defined.

(** X4: create-silence reads the clock exactly once, whether or not startsAt
    is given; no other tool reads it. *)
Theorem only_create_silence_reads_clock (rt : Runtime) (i : invocation) (w : world) :
  clock_reads (snd (call_tool rt i w))
  = match i with
    | CreateSilence _ _ _ _ _ => S (clock_reads w)
    | _ => clock_reads w
    end.
Proof.
  rewrite call_tool_snd, fetchFromAlertmanager_clock. destruct i; reflexivity.
Qed.

(** ** Calls do not influence one another *)

Lemma fetchFromAlertmanager_fst_ext (path : string) (options : RequestInit)
    (w1 w2 : world) :
  baseUrl w1 = baseUrl w2 ->
  upstream w1 = upstream w2 ->
  fst (fetchFromAlertmanager path options w1) = fst (fetchFromAlertmanager path options w2).
Proof.
  intros Hb Hu. rewrite !fetchFromAlertmanager_eq. unfold api_request, api_url.
  cbn zeta. rewrite Hb, Hu.
  destruct (upstream w2 _) as [r | e]; [ | reflexivity ].
  destruct (Response.ok r); [ | reflexivity ].
  destruct (Response.json r); reflexivity.
Qed.

Lemma tool_options_ext (rt : Runtime) (i : invocation) (w1 w2 : world) :
  clock w1 (clock_reads w1) = clock w2 (clock_reads w2) ->
  tool_options rt i w1 = tool_options rt i w2.
Proof. intro H. destruct i; cbn; try reflexivity. now rewrite H. Qed.

Lemma call_tool_fst_ext (rt : Runtime) (i : invocation) (w1 w2 : world) :
  baseUrl w1 = baseUrl w2 ->
  upstream w1 = upstream w2 ->
  clock w1 (clock_reads w1) = clock w2 (clock_reads w2) ->
  fst (call_tool rt i w1) = fst (call_tool rt i w2).
Proof.
  intros Hb Hu Hc. rewrite !call_tool_fst, (tool_options_ext rt i w1 w2 Hc).
  do 2 f_equal. apply fetchFromAlertmanager_fst_ext.
  - destruct i; exact Hb.
  - rewrite !upstream_before_call. exact Hu.
Qed.

(** X5: what a tool returns depends on the world only through the base URL,
    the upstream service and the clock reading of the moment: not on the
    requests made or the lines logged before, and not on how often the clock
    was read. *)
Theorem tool_result_independent_of_history (rt : Runtime) (i : invocation)
    (w1 w2 : world) :
  baseUrl w1 = baseUrl w2 ->
  upstream w1 = upstream w2 ->
  clock w1 (clock_reads w1) = clock w2 (clock_reads w2) ->
  fst (call_tool rt i w1) = fst (call_tool rt i w2).
Proof. apply call_tool_fst_ext. Qed.

Lemma tool_result_independent_of_history_witness :
  fst (call_tool example_runtime (GetAlerts None None None None)
         {| ALERTMANAGER_URL := Some "";
            upstream := alerts_answer [firing_alert];
            clock := fun _ => "2026-01-01T00:00:00.000Z";
            clock_reads := 7;
            requests := [{| url := "http://localhost:9093/api/v2/silences";
                            init := no_options |}];
            stderr := ["Error fetching from Alertmanager: fetch failed"] |})
  = fst (call_tool example_runtime (GetAlerts None None None None)
           (example_world (alerts_answer [firing_alert]))).
Proof.
  apply tool_result_independent_of_history; reflexivity.
Defined.

(** ** What the tools make of the parsed response *)

Lemma call_tool_on_value (rt : Runtime) (i : invocation) (w : world) (r : Response.t)
    (v : jsval) :
  upstream w (api_request w (tool_path i) (tool_options rt i w)) = Resolves r ->
  Response.ok r = true ->
  Response.json r = Ok v ->
  fst (call_tool rt i w)
  = Ok (match reshape rt i v with
        | Ok env => env
        | Throw e => error_result (error_prefix i ++ errorMessage e)
        end).
Proof.
  intros Hup Hok Hj. rewrite call_tool_fst.
  assert (Hup' : upstream (before_call i w)
                   (api_request (before_call i w) (tool_path i) (tool_options rt i w))
                 = Resolves r).
  { rewrite upstream_before_call, api_request_before_call. exact Hup. }
  rewrite (fetchFromAlertmanager_parsed _ _ _ _ Hup' Hok), Hj. reflexivity.
Qed.

Lemma mapM_map_Ok {A B C} (f : B -> result C) (g : A -> B) (h : A -> C) (l : list A) :
  (forall x, f (g x) = Ok (h x)) ->
  mapM f (map g l) = Ok (map h l).
Proof.
  intro H. induction l as [ | x l IH]; [ reflexivity | ].
  cbn [map mapM]. rewrite H. cbn [rbind]. rewrite IH. reflexivity.
Qed.

(** The projection stops at the first element that cannot be projected. *)
Lemma mapM_first_failure {A B} (f : A -> result B) (before after : list A) (bad : A)
    (e : exn) :
  Forall (fun x => exists y, f x = Ok y) before ->
  f bad = Throw e ->
  mapM f (before ++ bad :: after) = Throw e.
Proof.
  intros Hbefore Hbad. induction Hbefore as [ | x before (y & Hx) _ IH].
  - cbn [app mapM]. rewrite Hbad. reflexivity.
  - cbn [app mapM]. rewrite Hx. cbn [rbind]. rewrite IH. reflexivity.
Qed.

Lemma formatSilence_Silence_json (s : Silence.t) :
  formatSilence (Silence_json s)
  = Ok (VObj [("id", VStr (Silence.id s));
              ("status", VStr (SilenceStatus.state (Silence.status s)));
              ("createdBy", VStr (Silence.createdBy s));
              ("comment", VStr (Silence.comment s));
              ("startsAt", VStr (Silence.startsAt s));
              ("endsAt", VStr (Silence.endsAt s));
              ("matchers", VArr (map SilenceMatcher_json (Silence.matchers s)))]).
Proof. reflexivity. Qed.

(** X7: when get-silences receives a list of silences, its payload is the
    list, in order, of one object per silence with the fields id, status,
    createdBy, comment, startsAt, endsAt and matchers: status is the state
    string itself, not the status object, and the matchers are the ones
    received, unchanged. *)
Theorem get_silences_projection (rt : Runtime) (filter : option string) (w : world)
    (r : Response.t) (silences : list Silence.t) :
  upstream w (api_request w (silences_path filter) no_options) = Resolves r ->
  200 <= Response.status r <= 299 ->
  Response.json r = Ok (VArr (map Silence_json silences)) ->
  fst (get_silences rt filter w)
  = Ok (text_result
          (JSON_stringify rt
             (VArr (map (fun s =>
                           VObj [("id", VStr (Silence.id s));
                                 ("status", VStr (SilenceStatus.state (Silence.status s)));
                                 ("createdBy", VStr (Silence.createdBy s));
                                 ("comment", VStr (Silence.comment s));
                                 ("startsAt", VStr (Silence.startsAt s));
                                 ("endsAt", VStr (Silence.endsAt s));
                                 ("matchers",
                                  VArr (map SilenceMatcher_json (Silence.matchers s)))])
                        silences)))).
Proof.
  intros Hup Hok Hj. apply ok_range in Hok.
  change (get_silences rt filter w) with (call_tool rt (GetSilences filter) w).
  rewrite (call_tool_on_value rt (GetSilences filter) w r _ Hup Hok Hj).
  cbn [reshape array_map].
  rewrite (mapM_map_Ok formatSilence Silence_json _ silences formatSilence_Silence_json).
  reflexivity.
Qed.

Lemma get_silences_projection_witness :
  fst (get_silences example_runtime (Some "createdBy=admin")
         (example_world (answers 200 "OK" (Ok (VArr (map Silence_json [expired_silence]))))))
  = Ok (text_result "[array]").
Proof.
  rewrite (get_silences_projection example_runtime (Some "createdBy=admin")
             (example_world
                (answers 200 "OK" (Ok (VArr (map Silence_json [expired_silence])))))
             {| Response.status := 200; Response.statusText := "OK";
                Response.json := Ok (VArr (map Silence_json [expired_silence])) |}
             [expired_silence]).
  - reflexivity.
  - reflexivity.
  - cbn. lia.
  - reflexivity.
Defined.

(** X8: no partial result.  If one element of the list get-alerts receives
    cannot be projected, the call returns the failure envelope with that
    element's error (the first such element's), however many elements before
    and after it are fine; likewise for get-silences. *)
Theorem one_bad_element_fails_the_call (rt : Runtime) (w : world) (r : Response.t)
    (before after : list jsval) (bad : jsval) (e : exn) :
  200 <= Response.status r <= 299 ->
  Response.json r = Ok (VArr (before ++ bad :: after)) ->
  (forall filter silenced inhibited active,
      upstream w (api_request w (alerts_path filter silenced inhibited active) no_options)
      = Resolves r ->
      Forall (fun x => exists y, formatAlert rt x = Ok y) before ->
      formatAlert rt bad = Throw e ->
      fst (get_alerts rt filter silenced inhibited active w)
      = Ok (error_result ("Error fetching alerts: " ++ errorMessage e)))
  /\ (forall filter,
        upstream w (api_request w (silences_path filter) no_options) = Resolves r ->
        Forall (fun x => exists y, formatSilence x = Ok y) before ->
        formatSilence bad = Throw e ->
        fst (get_silences rt filter w)
        = Ok (error_result ("Error fetching silences: " ++ errorMessage e))).
Proof.
  intros Hok Hj. apply ok_range in Hok. split.
  - intros filter silenced inhibited active Hup Hbefore Hbad.
    change (get_alerts rt filter silenced inhibited active w)
      with (call_tool rt (GetAlerts filter silenced inhibited active) w).
    rewrite (call_tool_on_value rt (GetAlerts filter silenced inhibited active) w r _
               Hup Hok Hj).
    cbn [reshape array_map error_prefix].
    rewrite (mapM_first_failure _ _ _ _ _ Hbefore Hbad). reflexivity.
  - intros filter Hup Hbefore Hbad.
    change (get_silences rt filter w) with (call_tool rt (GetSilences filter) w).
    rewrite (call_tool_on_value rt (GetSilences filter) w r _ Hup Hok Hj).
    cbn [reshape array_map error_prefix].
    rewrite (mapM_first_failure _ _ _ _ _ Hbefore Hbad). reflexivity.
Qed.

Lemma one_bad_element_fails_the_call_witness :
  fst (get_alerts example_runtime None None None None
         (example_world
            (answers 200 "OK"
               (Ok (VArr ([Alert_json firing_alert]
                          ++ VObj [("fingerprint", VStr "ffff")]
                          :: [Alert_json blank_alert]))))))
  = Ok (error_result
          "Error fetching alerts: Cannot read properties of undefined (reading 'alertname')").
Proof.
  apply (proj1 (one_bad_element_fails_the_call example_runtime
                  (example_world
                     (answers 200 "OK"
                        (Ok (VArr ([Alert_json firing_alert]
                                   ++ VObj [("fingerprint", VStr "ffff")]
                                   :: [Alert_json blank_alert])))))
                  {| Response.status := 200; Response.statusText := "OK";
                     Response.json :=
                       Ok (VArr ([Alert_json firing_alert]
                                 ++ VObj [("fingerprint", VStr "ffff")]
                                 :: [Alert_json blank_alert])) |}
                  [Alert_json firing_alert] [Alert_json blank_alert]
                  (VObj [("fingerprint", VStr "ffff")])
                  (TypeError "Cannot read properties of undefined (reading 'alertname')")
                  ltac:(cbn; lia) eq_refl)
           None None None None).
  - reflexivity.
  - constructor; [ eexists; reflexivity | constructor ].
  - reflexivity.
Defined.

(** X9: an alert object cannot be projected without its labels, its
    annotations, its status and the two lists of the status: where one of
    them is missing, [formatAlert] throws a [TypeError].  The fingerprint,
    the alertname label, startsAt and the state may be missing: they are
    read without being looked into. *)
Theorem formatAlert_needs_its_parts (rt : Runtime) (fields : list (string * jsval)) :
  (assoc "labels" fields = None ->
   exists msg, formatAlert rt (VObj fields) = Throw (TypeError msg))
  /\ (forall labels,
        assoc "labels" fields = Some (VObj labels) ->
        assoc "annotations" fields = None ->
        exists msg, formatAlert rt (VObj fields) = Throw (TypeError msg))
  /\ (forall labels annotations,
        assoc "labels" fields = Some (VObj labels) ->
        assoc "annotations" fields = Some (VObj annotations) ->
        assoc "status" fields = None ->
        exists msg, formatAlert rt (VObj fields) = Throw (TypeError msg))
  /\ (forall labels annotations status,
        assoc "labels" fields = Some (VObj labels) ->
        assoc "annotations" fields = Some (VObj annotations) ->
        assoc "status" fields = Some (VObj status) ->
        assoc "silencedBy" status = None
        \/ (exists silencedBy, assoc "silencedBy" status = Some (VArr silencedBy)
                               /\ assoc "inhibitedBy" status = None) ->
        exists msg, formatAlert rt (VObj fields) = Throw (TypeError msg))
  /\ (forall labels annotations silencedBy inhibitedBy,
        assoc "labels" fields = Some (VObj labels) ->
        assoc "annotations" fields = Some (VObj annotations) ->
        assoc "status" fields
        = Some (VObj [("silencedBy", VArr silencedBy); ("inhibitedBy", VArr inhibitedBy)]) ->
        exists out,
          formatAlert rt (VObj fields) = Ok out
          /\ get out "fingerprint"
             = Ok (match assoc "fingerprint" fields with Some x => x | None => VUndefined end)
          /\ get out "alertname"
             = Ok (match assoc "alertname" labels with Some x => x | None => VUndefined end)
          /\ get_path out ["status"; "state"] = Ok VUndefined).
Proof.
  split; [ | split; [ | split; [ | split ] ] ].
  - intros Hl. unfold formatAlert. cbn [get]. rewrite Hl. cbn. eexists. reflexivity.
  - intros labels Hl Ha. unfold formatAlert. cbn [get]. rewrite Hl, Ha. cbn.
    eexists. reflexivity.
  - intros labels annotations Hl Ha Hs. unfold formatAlert. cbn [get].
    rewrite Hl, Ha, Hs. cbn. eexists. reflexivity.
  - intros labels annotations status Hl Ha Hs Hby. unfold formatAlert. cbn [get].
    rewrite Hl, Ha, Hs. cbn [rbind get].
    destruct Hby as [Hsb | (silencedBy & Hsb & Hib)].
    + rewrite Hsb. cbn. eexists. reflexivity.
    + rewrite Hsb, Hib. cbn. eexists. reflexivity.
  - intros labels annotations silencedBy inhibitedBy Hl Ha Hs. unfold formatAlert.
    cbn [get]. rewrite Hl, Ha, Hs. cbn. eexists. split; [ reflexivity | ].
    repeat split.
Qed.

Lemma formatAlert_needs_its_parts_witness :
  (exists msg,
      formatAlert example_runtime
        (VObj [("fingerprint", VStr "ffff"); ("labels", VObj [("alertname", VStr "X")])])
      = Throw (TypeError msg))
  /\ exists out,
       formatAlert example_runtime
         (VObj [("labels", VObj []); ("annotations", VObj []);
                ("status", VObj [("silencedBy", VArr []); ("inhibitedBy", VArr [])])])
       = Ok out
       /\ get out "alertname" = Ok VUndefined.
Proof.
  split.
  - apply (proj1 (proj2 (formatAlert_needs_its_parts example_runtime
                           [("fingerprint", VStr "ffff");
                            ("labels", VObj [("alertname", VStr "X")])]))
             [("alertname", VStr "X")]); reflexivity.
  - destruct (proj2 (proj2 (proj2 (proj2
                (formatAlert_needs_its_parts example_runtime
                   [("labels", VObj []); ("annotations", VObj []);
                    ("status", VObj [("silencedBy", VArr []); ("inhibitedBy", VArr [])])]))))
              [] [] [] [] eq_refl eq_refl eq_refl) as (out & Hout & _ & Hname & _).
    exists out. split; [ exact Hout | exact Hname ].
Defined.

(** X10: the tools that expect a list do not accept anything else: on a 2xx
    response whose body parses to a value that is no array, get-alerts,
    get-alert-details and get-silences return a failure envelope.
    get-alert-groups expects nothing: whatever the body parses to is
    serialized and returned. *)
Theorem list_tools_need_an_array (rt : Runtime) (i : invocation) (w : world)
    (r : Response.t) (v : jsval) :
  upstream w (api_request w (tool_path i) (tool_options rt i w)) = Resolves r ->
  200 <= Response.status r <= 299 ->
  Response.json r = Ok v ->
  match i with
  | GetAlerts _ _ _ _ | GetAlertDetails _ | GetSilences _ =>
      is_array v = false ->
      exists msg, fst (call_tool rt i w) = Ok (error_result (error_prefix i ++ msg))
  | GetAlertGroups _ _ _ =>
      fst (call_tool rt i w) = Ok (text_result (JSON_stringify rt v))
  | _ => True
  end.
Proof.
  intros Hup Hok Hj. apply ok_range in Hok.
  rewrite (call_tool_on_value rt i w r v Hup Hok Hj).
  destruct i; try exact I; try reflexivity;
    intro Hv; destruct v; try discriminate Hv; eexists; reflexivity.
Qed.

Lemma list_tools_need_an_array_witness :
  (exists msg,
      fst (call_tool example_runtime (GetAlertDetails "a1b2c3")
             (example_world (answers 200 "OK" (Ok (VObj [("status", VStr "success")])))))
      = Ok (error_result ("Error fetching alert details: " ++ msg)))
  /\ fst (call_tool example_runtime (GetAlertGroups None None None)
            (example_world (answers 200 "OK" (Ok VNull))))
     = Ok (text_result "primitive").
Proof.
  split.
  - apply (list_tools_need_an_array example_runtime (GetAlertDetails "a1b2c3")
             (example_world (answers 200 "OK" (Ok (VObj [("status", VStr "success")]))))
             {| Response.status := 200; Response.statusText := "OK";
                Response.json := Ok (VObj [("status", VStr "success")]) |}
             (VObj [("status", VStr "success")])).
    + reflexivity.
    + cbn. lia.
    + reflexivity.
    + reflexivity.
  - apply (list_tools_need_an_array example_runtime (GetAlertGroups None None None)
             (example_world (answers 200 "OK" (Ok VNull)))
             {| Response.status := 200; Response.statusText := "OK";
                Response.json := Ok VNull |} VNull).
    + reflexivity.
    + cbn. lia.
    + reflexivity.
Defined.

(** X11: create-silence does not check the identifier it reports.  On a 2xx
    response it reports the [silenceID] of the parsed body when that is a
    string; when the body has no [silenceID] it still reports success, with
    the text undefined in place of the identifier; only a body that is null
    makes it fail. *)
Theorem create_silence_reported_id (rt : Runtime) (matchers : list Matcher.t)
    (startsAt : option string) (endsAt createdBy comment : string) (w : world)
    (r : Response.t) (v : jsval) :
  upstream w
    (api_request w "silences"
       (post_json rt (silenceData matchers startsAt endsAt createdBy comment
                        (clock w (clock_reads w)))))
  = Resolves r ->
  200 <= Response.status r <= 299 ->
  Response.json r = Ok v ->
  let out := fst (create_silence rt matchers startsAt endsAt createdBy comment w) in
  (forall id, get v "silenceID" = Ok (VStr id) ->
     out = Ok (text_result ("Successfully created silence with ID: " ++ id)))
  /\ (get v "silenceID" = Ok VUndefined ->
      out = Ok (text_result "Successfully created silence with ID: undefined"))
  /\ (v = VNull ->
      exists msg, out = Ok (error_result ("Error creating silence: " ++ msg))).
Proof.
  intros Hup Hok Hj. apply ok_range in Hok. cbn zeta.
  change (create_silence rt matchers startsAt endsAt createdBy comment w)
    with (call_tool rt (CreateSilence matchers startsAt endsAt createdBy comment) w).
  rewrite (call_tool_on_value rt
             (CreateSilence matchers startsAt endsAt createdBy comment) w r v Hup Hok Hj).
  cbn [reshape error_prefix].
  repeat split.
  - intros id ->. reflexivity.
  - intros ->. reflexivity.
  - intros ->. eexists. reflexivity.
Qed.

Lemma create_silence_reported_id_witness :
  fst (create_silence example_runtime [] None "2030-01-01T00:00:00Z" "u" "c"
         (example_world (answers 200 "OK" (Ok (VObj [("id", VStr "id-1")])))))
  = Ok (text_result "Successfully created silence with ID: undefined").
Proof.
  apply (create_silence_reported_id example_runtime [] None "2030-01-01T00:00:00Z" "u" "c"
           (example_world (answers 200 "OK" (Ok (VObj [("id", VStr "id-1")]))))
           {| Response.status := 200; Response.statusText := "OK";
              Response.json := Ok (VObj [("id", VStr "id-1")]) |}
           (VObj [("id", VStr "id-1")])).
  - reflexivity.
  - cbn. lia.
  - reflexivity.
  - reflexivity.
Defined.

(** ** The query-string encoding *)

Lemma string_forallb_app (p : ascii -> bool) (a b : string) :
  string_forallb p (a ++ b) = string_forallb p a && string_forallb p b.
Proof.
  induction a as [ | c a IH]; [ reflexivity | ].
  cbn. rewrite IH. apply andb_assoc.
Qed.

Lemma count_char_app (c : ascii) (a b : string) :
  count_char c (a ++ b) = count_char c a + count_char c b.
Proof.
  induction a as [ | c' a IH]; [ reflexivity | ].
  cbn. rewrite IH. apply Nat.add_assoc.
Qed.

Lemma count_char_absent (p : ascii -> bool) (c : ascii) (s : string) :
  p c = false -> string_forallb p s = true -> count_char c s = 0.
Proof.
  intros Hc. induction s as [ | c' s IH]; [ reflexivity | ].
  cbn. intro H. apply andb_true_iff in H. destruct H as [Hc' Hs].
  rewrite (IH Hs). destruct (Ascii.eqb c c') eqn:E; [ | reflexivity ].
  apply Ascii.eqb_eq in E. congruence.
Qed.

Lemma encode_byte_alphabet (c : ascii) :
  string_forallb encoded_char (encode_byte c) = true.
Proof.
  destruct c as [[ | ] [ | ] [ | ] [ | ] [ | ] [ | ] [ | ] [ | ]]; reflexivity.
Qed.

Lemma urlencode_alphabet (s : string) :
  string_forallb encoded_char (urlencode s) = true.
Proof.
  induction s as [ | c s IH]; [ reflexivity | ].
  cbn [urlencode]. now rewrite string_forallb_app, encode_byte_alphabet, IH.
Qed.

Lemma urldecode_encode_byte (c : ascii) (rest : string) :
  urldecode (encode_byte c ++ rest) = String c (urldecode rest).
Proof.
  destruct c as [[ | ] [ | ] [ | ] [ | ] [ | ] [ | ] [ | ] [ | ]]; reflexivity.
Qed.

Lemma urldecode_urlencode (s : string) : urldecode (urlencode s) = s.
Proof.
  induction s as [ | c s IH]; [ reflexivity | ].
  cbn [urlencode]. now rewrite urldecode_encode_byte, IH.
Qed.

Lemma pair_separators (kv : string * string) :
  count_char "&" (urlencode (fst kv) ++ "=" ++ urlencode (snd kv)) = 0
  /\ count_char "=" (urlencode (fst kv) ++ "=" ++ urlencode (snd kv)) = 1.
Proof.
  rewrite !count_char_app.
  rewrite !(count_char_absent encoded_char "&" _ eq_refl (urlencode_alphabet _)).
  rewrite !(count_char_absent encoded_char "=" _ eq_refl (urlencode_alphabet _)).
  split; reflexivity.
Qed.

(** X12: an encoded name or value is made only of ASCII letters and digits
    and of [*], [-], [.], [_], [+] and [%]: whatever the text, its encoding
    holds none of the characters that structure a URL or a query string. *)
Theorem urlencode_is_inert (s : string) :
  string_forallb encoded_char (urlencode s) = true
  /\ count_char "&" (urlencode s) = 0
  /\ count_char "=" (urlencode s) = 0
  /\ count_char "?" (urlencode s) = 0
  /\ count_char "#" (urlencode s) = 0
  /\ count_char "/" (urlencode s) = 0
  /\ count_char " " (urlencode s) = 0.
Proof.
  pose proof (urlencode_alphabet s) as H.
  repeat split; [ exact H | .. ];
    (apply (count_char_absent encoded_char); [ reflexivity | exact H ]).
Qed.

Lemma append_cancel_l (a x y : string) : a ++ x = a ++ y -> x = y.
Proof.
  induction a as [ | c a IH]; cbn; [ trivial | ].
  intros [= H]. exact (IH H).
Qed.

Lemma silences_path_filter (f : string) :
  f <> "" -> silences_path (Some f) = "silences?filter=" ++ urlencode f.
Proof. destruct f; [ congruence | reflexivity ]. Qed.

Lemma alerts_path_filter (f : string) :
  f <> "" -> alerts_path (Some f) None None None = "alerts?filter=" ++ urlencode f.
Proof. destruct f; [ congruence | reflexivity ]. Qed.

(** X13: on well-formed text (the texts that have UTF-8 bytes, which are the
    strings of this model; a JavaScript string with a lone surrogate is not
    one, and the serializer sends U+FFFD in its place) the encoding loses
    nothing: reading an encoded text the way a form-urlencoded parser does
    gives the text back, so that two different well-formed filters are never
    sent as the same query. *)
Theorem urlencode_round_trip :
  (forall s, urldecode (urlencode s) = s)
  /\ (forall s1 s2, urlencode s1 = urlencode s2 -> s1 = s2)
  /\ (forall f1 f2, silences_path (Some f1) = silences_path (Some f2) -> f1 = f2).
Proof.
  assert (Hinj : forall s1 s2, urlencode s1 = urlencode s2 -> s1 = s2).
  { intros s1 s2 H. rewrite <- (urldecode_urlencode s1), <- (urldecode_urlencode s2).
    now rewrite H. }
  split; [ exact urldecode_urlencode | ]. split; [ exact Hinj | ].
  intros f1 f2 H.
  destruct f1 as [ | c1 f1], f2 as [ | c2 f2]; try reflexivity.
  - rewrite (silences_path_filter (String c2 f2)) in H by discriminate.
    discriminate H.
  - rewrite (silences_path_filter (String c1 f1)) in H by discriminate.
    discriminate H.
  - rewrite !silences_path_filter in H by discriminate.
    apply Hinj. exact (append_cancel_l _ _ _ H).
Qed.

Lemma urlencode_round_trip_witness :
  urldecode "alertname%3D%7E%27.*CPU.*%27+job%3Dnode" = "alertname=~'.*CPU.*' job=node".
Proof.
  exact (proj1 urlencode_round_trip "alertname=~'.*CPU.*' job=node").
Defined.

(** X14: a serialized parameter list has one [=] per parameter and one [&]
    between two parameters, and no other: no name and no value, whatever it
    holds, adds a parameter to the query. *)
Theorem query_string_separators (params : URLSearchParams) :
  count_char "=" (URLSearchParams_toString params) = length params
  /\ count_char "&" (URLSearchParams_toString params) = pred (length params).
Proof.
  unfold URLSearchParams_toString.
  destruct params as [ | kv params]; [ split; reflexivity | ].
  revert kv. induction params as [ | kv' params IH]; intro kv.
  - cbn [map String.concat length pred].
    destruct (pair_separators kv) as [Hamp Heq]. split; assumption.
  - destruct (IH kv') as [IHeq IHamp]. destruct (pair_separators kv) as [Hamp Heq].
    cbn [map String.concat] in *. cbn [length pred] in *.
    rewrite !(count_char_app _ (urlencode (fst kv) ++ "=" ++ urlencode (snd kv))).
    rewrite Hamp, Heq.
    change (("&" ++ ?x)%string) with (String "&" x).
    cbn [count_char Ascii.eqb Bool.eqb]. rewrite IHeq, IHamp. split; reflexivity.
Qed.

(** X15: a filter that is absent or empty is not sent: get-silences then
    requests the bare path silences, without a question mark, and get-alerts
    the bare path alerts.  A filter that is not empty is sent, encoded, as
    the filter parameter. *)
Theorem empty_filter_is_dropped (filter : option string) :
  (filter = None \/ filter = Some "" ->
   silences_path filter = "silences"
   /\ alerts_path filter None None None = "alerts")
  /\ (forall f, filter = Some f -> f <> "" ->
        silences_path filter = "silences?filter=" ++ urlencode f
        /\ alerts_path filter None None None = "alerts?filter=" ++ urlencode f).
Proof.
  split.
  - intros [-> | ->]; split; reflexivity.
  - intros f -> Hf. split; [ now apply silences_path_filter | now apply alerts_path_filter ].
Qed.

Lemma empty_filter_is_dropped_witness :
  silences_path (Some "createdBy=~admin") = "silences?filter=createdBy%3D%7Eadmin".
Proof.
  exact (proj1 (proj2 (empty_filter_is_dropped (Some "createdBy=~admin"))
                  "createdBy=~admin" eq_refl ltac:(discriminate))).
Defined.

(** ** The argument shapes *)

(** X16: the arguments of every call the handlers are given pass the shape
    the tool is registered with; absent optional arguments are accepted.  The
    shapes of get-alert-details and delete-silence require their one string,
    and the shape of create-silence its endsAt, createdBy and comment. *)
Theorem tool_shapes_accept_arguments :
  (forall i, accepts (tool_shape i) (arguments i) = true)
  /\ (forall v, accepts get_alert_details_shape v = true ->
                exists fingerprint, get v "fingerprint" = Ok (VStr fingerprint))
  /\ (forall v, accepts delete_silence_shape v = true ->
                exists silenceId, get v "silenceId" = Ok (VStr silenceId))
  /\ (forall v, accepts create_silence_shape v = true ->
                exists endsAt createdBy comment,
                  get v "endsAt" = Ok (VStr endsAt)
                  /\ get v "createdBy" = Ok (VStr createdBy)
                  /\ get v "comment" = Ok (VStr comment)).
Proof.
  split; [ | split; [ | split ] ].
  - intros [filter silenced inhibited active | fingerprint
           | matchers startsAt endsAt createdBy comment | filter | silenceId
           | active silenced inhibited ].
    + destruct filter, silenced as [[ | ] | ], inhibited as [[ | ] | ],
        active as [[ | ] | ]; reflexivity.
    + reflexivity.
    + cbn [tool_shape arguments]. unfold create_silence_args, create_silence_shape.
      destruct startsAt; cbn; now rewrite accepts_matcher_args.
    + destruct filter; reflexivity.
    + reflexivity.
    + destruct active as [[ | ] | ], silenced as [[ | ] | ], inhibited as [[ | ] | ];
        reflexivity.
  - intros v H. destruct v as [ | | | | | | fields]; try discriminate H.
    cbn in H. cbn [get].
    destruct (assoc "fingerprint" fields) as [[ | | | | s | | ] | ]; try discriminate H.
    now exists s.
  - intros v H. destruct v as [ | | | | | | fields]; try discriminate H.
    cbn in H. cbn [get].
    destruct (assoc "silenceId" fields) as [[ | | | | s | | ] | ]; try discriminate H.
    now exists s.
  - intros v H. destruct v as [ | | | | | | fields]; try discriminate H.
    cbn in H. cbn [get].
    repeat (apply andb_true_iff in H; destruct H as [? H]).
    destruct (assoc "endsAt" fields) as [[ | | | | e | | ] | ]; try discriminate.
    destruct (assoc "createdBy" fields) as [[ | | | | c | | ] | ]; try discriminate.
    destruct (assoc "comment" fields) as [[ | | | | m | | ] | ]; try discriminate.
    now exists e, c, m.
Qed.

Lemma tool_shapes_accept_arguments_witness :
  exists fingerprint,
    get (arguments (GetAlertDetails "a1b2c3")) "fingerprint" = Ok (VStr fingerprint).
Proof.
  destruct tool_shapes_accept_arguments as (Hall & Hfp & _).
  apply Hfp. apply (Hall (GetAlertDetails "a1b2c3")).
Defined.

(** ** The base URL *)

(** X17: the base URL is the environment's [ALERTMANAGER_URL] taken as it
    is, and http://localhost:9093 when that is not set or empty; every
    request of every tool goes to that base followed by /api/v2/ and the
    tool's path. *)
Theorem requests_go_to_the_base_url (rt : Runtime) (i : invocation) (w : world) :
  (forall s, ALERTMANAGER_URL w = Some s -> s <> "" ->
     requests (snd (call_tool rt i w))
     = (requests w
        ++ [{| url := s ++ "/api/v2/" ++ tool_path i; init := tool_options rt i w |}])%list)
  /\ (ALERTMANAGER_URL w = None \/ ALERTMANAGER_URL w = Some "" ->
      requests (snd (call_tool rt i w))
      = (requests w
         ++ [{| url := "http://localhost:9093/api/v2/" ++ tool_path i;
                init := tool_options rt i w |}])%list).
Proof.
  rewrite call_tool_requests. unfold api_request, api_url, baseUrl. split.
  - intros s -> Hs. destruct s; [ congruence | reflexivity ].
  - intros [-> | ->]; reflexivity.
Qed.

Lemma requests_go_to_the_base_url_witness :
  requests (snd (call_tool example_runtime (DeleteSilence "3c1d")
                   {| ALERTMANAGER_URL := Some "https://am.example/";
                      upstream := answers 200 "OK" (Ok (VObj []));
                      clock := fun _ => "2026-01-01T00:00:00.000Z";
                      clock_reads := 0;
                      requests := [];
                      stderr := [] |}))
  = [{| url := "https://am.example//api/v2/silence/3c1d"; init := delete_options |}].
Proof.
  apply (proj1 (requests_go_to_the_base_url example_runtime (DeleteSilence "3c1d")
                  {| ALERTMANAGER_URL := Some "https://am.example/";
                     upstream := answers 200 "OK" (Ok (VObj []));
                     clock := fun _ => "2026-01-01T00:00:00.000Z";
                     clock_reads := 0;
                     requests := [];
                     stderr := [] |})
           "https://am.example/").
  - reflexivity.
  - discriminate.
Defined.
